(** * LZaaS CLI: the account-request ledger and the OU migration commands

    A shallow embedding of [lzaas/core/aft_manager.py] (class [AFTManager])
    and of [lzaas/cli/commands/migrate.py] (commands [existing_ou] and
    [simple]), together with the properties of the request ledger, the OU
    resolver, the move orchestration and the status view.

    The AWS services the code talks to through boto3 (DynamoDB, CodePipeline,
    Organizations) are modelled as explicit state: what the program reads is
    a field of that state, what it writes is a new state. *)

From stdpp Require Import gmap strings list fin_maps sorting.

(** ** Python values, exceptions and results *)

Module Py.

(** Attribute values as the code observes them: strings, [None], and any
    other object, which is carried with its [str()] rendering and its truth
    value (the two observations the sources make of a value). *)
Inductive value :=
| VStr (s : string)
| VNone
| VObj (rendering : string) (truth : bool).

#[global] Instance value_eq_dec : EqDecision value.
Proof. solve_decision. Defined.

(** [str(v)] *)
Definition str (v : value) : string :=
  match v with
  | VStr s => s
  | VNone => "None"
  | VObj r _ => r
  end.

(** The truth value of [v] in an [if]. *)
Definition truthy (v : value) : bool :=
  match v with
  | VStr s => negb (String.eqb s "")
  | VNone => false
  | VObj _ t => t
  end.

(** The truth value of an optional string ([None] and [""] are false). *)
Definition truthy_str (o : option string) : bool :=
  match o with
  | Some s => negb (String.eqb s "")
  | None => false
  end.

(** A dict with string keys. *)
Abbreviation dict := (gmap string value).

(** [d.get(key)] followed by a truth test. *)
Definition get_truthy (d : dict) (key : string) : option value :=
  match d !! key with
  | Some v => if truthy v then Some v else None
  | None => None
  end.

(** The exceptions the sources raise or catch. [ClientError] is botocore's,
    with the service's error code; the others are Python's own. *)
Inductive exn :=
| ClientError (code message : string)
| Exception (message : string)
| TypeError (message : string)
| IndexError (message : string).

(** [str(e)] *)
Definition str_exn (e : exn) : string :=
  match e with
  | ClientError _ m => m
  | Exception m => m
  | TypeError m => m
  | IndexError m => m
  end.

Inductive outcome (A : Type) :=
| Return (a : A)
| Raise (e : exn).
Arguments Return {A} a.
Arguments Raise {A} e.

(** *** Characters and strings (ASCII range) *)

(** [c.isdigit()] on the ASCII range: the ten decimal digits. *)
Definition isdigit_ascii (c : Ascii.ascii) : bool :=
  let n := Ascii.nat_of_ascii c in (48 <=? n)%nat && (n <=? 57)%nat.

(** [c.lower()] on the ASCII range: [A]..[Z] go to [a]..[z]. *)
Definition lower_ascii (c : Ascii.ascii) : Ascii.ascii :=
  let n := Ascii.nat_of_ascii c in
  if (65 <=? n)%nat && (n <=? 90)%nat then Ascii.ascii_of_nat (n + 32) else c.

(** [s.lower()] on the ASCII range. *)
Fixpoint lower (s : string) : string :=
  match s with
  | EmptyString => EmptyString
  | String c s' => String (lower_ascii c) (lower s')
  end.

Fixpoint all_digits (s : string) : bool :=
  match s with
  | EmptyString => true
  | String c s' => isdigit_ascii c && all_digits s'
  end.

(** [s.isdigit()]: false on the empty string. *)
Definition isdigit (s : string) : bool :=
  match s with
  | EmptyString => false
  | _ => all_digits s
  end.

(** [needle in s] *)
Definition contains (needle s : string) : bool :=
  match String.index 0 needle s with
  | Some _ => true
  | None => false
  end.

(** [s.isascii()]: on such strings [lower], [isdigit] and the white space
    of [split] are Python's; beyond them Python also knows the letters,
    digits and spaces of Unicode. *)
Fixpoint isascii (s : string) : bool :=
  match s with
  | EmptyString => true
  | String c s' => (Ascii.nat_of_ascii c <? 128)%nat && isascii s'
  end.

End Py.
Import Py.

(** ** The request ledger ([lzaas/core/aft_manager.py]) *)

Module AFTManager.

(** *** The AWS services behind the manager *)

(** A DynamoDB table with the hash key [request_id]: items by key. *)
Abbreviation table := (gmap string dict).

Record Execution := {
  pipelineExecutionId : string;
  execution_status : string
}.

Record Pipeline := {
  pipeline_name : string;
  pipelineExecutionSummaries : list Execution
}.

(** The state of the account: the DynamoDB tables by name, and the pipelines
    CodePipeline knows, with their executions, most recent first. *)
Record aws := {
  dynamodb : gmap string table;
  codepipeline : list Pipeline
}.

Definition with_dynamodb (d : gmap string table) (st : aws) : aws :=
  {| dynamodb := d; codepipeline := codepipeline st |}.

(** A call that reads and writes the services and may raise. *)
Definition call (A : Type) : Type := aws -> outcome A * aws.

Definition ret {A} (a : A) : call A := fun st => (Return a, st).
Definition raise {A} (e : exn) : call A := fun st => (Raise e, st).
Definition bind {A B} (c : call A) (k : A -> call B) : call B :=
  fun st =>
    match c st with
    | (Return a, st') => k a st'
    | (Raise e, st') => (Raise e, st')
    end.
(** [try: c except ...: h e] *)
Definition try_except {A} (c : call A) (h : exn -> call A) : call A :=
  fun st =>
    match c st with
    | (Return a, st') => (Return a, st')
    | (Raise e, st') => h e st'
    end.

Notation "x <- c ;; k" := (bind c (fun x => k))
  (at level 100, c at next level, right associativity).

(** *** DynamoDB operations used by the manager *)

Section Dynamo.

(** Attribute names that DynamoDB refuses when they are written literally in
    an update expression (its reserved words, and tokens that are not
    names). The list belongs to the service, not to the sources. *)
Variable refused_name : string -> bool.

Definition not_found : exn :=
  ClientError "ResourceNotFoundException" "Requested resource not found".

Definition validation (m : string) : exn := ClientError "ValidationException" m.

(** [table.load()] *)
Definition load (name : string) : call unit :=
  fun st =>
    match dynamodb st !! name with
    | Some _ => (Return tt, st)
    | None => (Raise not_found, st)
    end.

(** The members that botocore's description of the service gives an entry
    of [GlobalSecondaryIndexes]. *)
Definition index_members : list string :=
  ["IndexName"; "KeySchema"; "Projection"; "ProvisionedThroughput";
   "OnDemandThroughput"; "WarmThroughput"].

(** botocore checks the arguments of a call against its description of the
    service before any request is sent, and raises [ParamValidationError]
    on a member it does not know. That error is no [ClientError]; its
    message, which goes on to list the members known, is given in short. *)
Definition validate_index (index : list string) : option exn :=
  match filter (fun member => member ∉ index_members) index with
  | [] => None
  | member :: _ =>
      Some (Exception
        ("Parameter validation failed: Unknown parameter in " +:+
         "GlobalSecondaryIndexes[0]: " +:+ member))
  end.

(** [dynamodb.create_table(TableName=name, ...,
    GlobalSecondaryIndexes=[index], ...)] then [table.wait_until_exists()],
    where [index] lists the members of the one index of the call. *)
Definition create_table (name : string) (index : list string) : call string :=
  fun st =>
    match validate_index index with
    | Some e => (Raise e, st)
    | None =>
        match dynamodb st !! name with
        | Some _ =>
            (Raise (ClientError "ResourceInUseException" "Table already exists"),
             st)
        | None => (Return name, with_dynamodb (<[name := ∅]> (dynamodb st)) st)
        end
    end.

(** [table.put_item(Item=item)]: no condition is given, so an item with the
    same key is replaced. *)
Definition put_item (name : string) (item : dict) : call unit :=
  fun st =>
    match dynamodb st !! name with
    | None => (Raise not_found, st)
    | Some tbl =>
        match item !! "request_id" with
        | Some (VStr key) =>
            (Return tt,
             with_dynamodb (<[name := <[key := item]> tbl]> (dynamodb st)) st)
        | _ => (Raise (validation "Missing the key request_id in the item"), st)
        end
    end.

(** [table.get_item(Key={"request_id": key})], then [response.get("Item")].
    The service refuses an empty key, here and in an update or a delete,
    with a [ValidationException]; the refusal is left out, and the
    statements that depend on it take the key not empty. *)
Definition get_item (name key : string) : call (option dict) :=
  fun st =>
    match dynamodb st !! name with
    | None => (Raise not_found, st)
    | Some tbl => (Return (tbl !! key), st)
    end.

(** [table.delete_item(Key={"request_id": key})] *)
Definition delete_item (name key : string) : call unit :=
  fun st =>
    match dynamodb st !! name with
    | None => (Raise not_found, st)
    | Some tbl =>
        (Return tt, with_dynamodb (<[name := delete key tbl]> (dynamodb st)) st)
    end.

(** The left-hand side of an assignment of an update expression: an attribute
    name written as it is, or a [#placeholder]. *)
Inductive path :=
| Attr (name : string)
| NameRef (placeholder : string).

(** The arguments of [update_item]: the update expression is the list of
    the assignments after [SET], each a path and a [:value] placeholder. *)
Record update_kwargs := {
  Key : string;
  UpdateExpression : list (path * string);
  ExpressionAttributeValues : dict;
  ExpressionAttributeNames : option (gmap string string)
}.

Definition resolve_path (names : option (gmap string string)) (p : path)
  : outcome string :=
  match p with
  | Attr n =>
      if refused_name n
      then Raise (validation "Attribute name is a reserved keyword")
      else Return n
  | NameRef r =>
      match names ≫= (.!! r) with
      | Some n => Return n
      | None => Raise (validation "An expression attribute name is not defined")
      end
  end.

(** One assignment [path = :ref] of a [SET] action. *)
Definition apply_assignment (kw : update_kwargs) (item : dict)
    (a : path * string) : outcome dict :=
  match resolve_path (ExpressionAttributeNames kw) (fst a) with
  | Raise e => Raise e
  | Return n =>
      if decide (n = "request_id")
      then Raise (validation "Cannot update attribute request_id")
      else
        match ExpressionAttributeValues kw !! snd a with
        | Some v => Return (<[n := v]> item)
        | None => Raise (validation "An expression attribute value is not defined")
        end
  end.

Fixpoint apply_set (kw : update_kwargs) (item : dict)
    (l : list (path * string)) : outcome dict :=
  match l with
  | [] => Return item
  | a :: l' =>
      match apply_assignment kw item a with
      | Return item' => apply_set kw item' l'
      | Raise e => Raise e
      end
  end.

(** [table.update_item] on the keyword arguments, with [ReturnValues] set
    to [ALL_NEW], then
    [response.get("Attributes")]. No condition is given: when no item has
    the key, the update starts from an item holding the key alone. *)
Definition update_item (name : string) (kw : update_kwargs) : call dict :=
  fun st =>
    match dynamodb st !! name with
    | None => (Raise not_found, st)
    | Some tbl =>
        let old := default {[ "request_id" := VStr (Key kw) ]} (tbl !! Key kw) in
        match apply_set kw old (UpdateExpression kw) with
        | Raise e => (Raise e, st)
        | Return new =>
            (Return new,
             with_dynamodb (<[name := <[Key kw := new]> tbl]> (dynamodb st)) st)
        end
    end.

(** *** The request and status records *)

(** Modelled from the spec: [lzaas/core/models.py] ([AccountRequest] and its
    [to_dict]) is not among the sources. Following the persisted shape of a
    ledger record, a request is its [request_id], the primary key, with the
    remaining fields as the record body. *)
Record AccountRequest := {
  request_id : string;
  body : dict
}.

Definition to_dict (r : AccountRequest) : dict :=
  <["request_id" := VStr (request_id r)]> (body r).

(** Modelled from the spec: [AFTStatus] of [lzaas/core/models.py] is not
    among the sources; its fields are those [get_aft_status] sets and
    [status.check] reads ([pipeline_execution_id] is left at its default). *)
Record AFTStatus := {
  aft_request_id : string;
  pipeline_status : string;
  pipeline_execution_id : option string;
  aft_account_id : option string;
  last_updated : option string
}.

(** *** The manager *)

Definition table_name : string := "lzaas-account-requests".

(** The index of the call is written with its name, key schema and
    projection, and with [BillingMode], which the source puts inside the
    index as well as beside it. *)
Definition _create_table : call string :=
  try_except
    (create_table table_name
       ["IndexName"; "KeySchema"; "Projection"; "BillingMode"])
    (fun e =>
       match e with
       | ClientError _ _ =>
           raise (Exception ("Failed to create DynamoDB table: " +:+ str_exn e))
       | _ => raise e
       end).

Definition _get_table : call string :=
  try_except (_ <- load table_name ;; ret table_name)
    (fun e =>
       match e with
       | ClientError code _ =>
           if String.eqb code "ResourceNotFoundException"
           then _create_table
           else raise (Exception ("DynamoDB error: " +:+ str_exn e))
       | _ => raise e
       end).

(** The dict a create, update or delete returns. *)
Inductive response :=
| Created (request_id message : string)
| Updated (updated_item : dict)
| Deleted (message : string)
| Failed (error : string).

(** [result["success"]] *)
Definition success (r : response) : bool :=
  match r with
  | Failed _ => false
  | _ => true
  end.

Definition success_of (o : outcome response) : bool :=
  match o with
  | Return r => success r
  | Raise _ => false
  end.

Definition create_account_request (account_request : AccountRequest)
  : call response :=
  try_except
    (table <- _get_table ;;
     _ <- put_item table (to_dict account_request) ;;
     ret (Created (request_id account_request)
            "Account request created successfully"))
    (fun e => ret (Failed (str_exn e))).

Definition get_account_request (request_id : string) : call (option dict) :=
  try_except
    (table <- _get_table ;;
     get_item table request_id)
    (fun e => raise (Exception ("Failed to get account request: " +:+ str_exn e))).

(** The body of the loop of [update_account_request] over
    [updates.items()]: the expression so far, the values and the names. *)
Definition add_assignment
    (acc : list (path * string) * dict * gmap string string)
    (kv : string * value) : list (path * string) * dict * gmap string string :=
  let '(update_expression, expression_values, expression_names) := acc in
  let '(key, value) := kv in
  if decide (key = "status")
  then (update_expression ++ [(NameRef "#status", ":status")],
        <[":status" := value]> expression_values,
        <["#status" := "status"]> expression_names)
  else (update_expression ++ [(Attr key, ":" +:+ key)],
        <[":" +:+ key := value]> expression_values,
        expression_names).

(** [now] is [datetime.utcnow().isoformat()] at the time of the call. *)
Definition update_account_request (now : string) (request_id : string)
    (updates : dict) : call response :=
  try_except
    (table <- _get_table ;;
     let updates := <["updated_date" := VStr now]> updates in
     let '(update_expression, expression_values, expression_names) :=
       foldl add_assignment ([], ∅, ∅) (map_to_list updates) in
     let kwargs :=
       {| Key := request_id;
          UpdateExpression := update_expression;
          ExpressionAttributeValues := expression_values;
          ExpressionAttributeNames :=
            if decide (expression_names = ∅) then None
            else Some expression_names |} in
     new <- update_item table kwargs ;;
     ret (Updated new))
    (fun e => ret (Failed (str_exn e))).

Definition delete_account_request (request_id : string) : call response :=
  try_except
    (table <- _get_table ;;
     _ <- delete_item table request_id ;;
     ret (Deleted ("Account request " +:+ request_id +:+ " deleted")))
    (fun e => ret (Failed (str_exn e))).

Definition get_aft_status (request_id : string) : call (option AFTStatus) :=
  try_except
    (request <- get_account_request request_id ;;
     match request with
     | None => ret None
     | Some request =>
         if decide (request = ∅) then ret None
         else
           ret (Some
             {| aft_request_id := request_id;
                pipeline_status :=
                  str (default (VStr "unknown") (request !! "status"));
                pipeline_execution_id := None;
                aft_account_id := str <$> get_truthy request "account_id";
                last_updated := str <$> get_truthy request "updated_date" |})
     end)
    (fun e => raise (Exception ("Failed to get AFT status: " +:+ str_exn e))).

(** [codepipeline.list_pipelines()], then for each pipeline with ["aft"] in
    its lower-cased name, [list_pipeline_executions(maxResults=5)]. *)
Definition list_aft_pipelines : call (list (string * list Execution)) :=
  fun st =>
    (Return
       (omap (fun p =>
                if contains "aft" (lower (pipeline_name p))
                then Some (pipeline_name p, take 5 (pipelineExecutionSummaries p))
                else None)
             (codepipeline st)),
     st).

End Dynamo.

(** *** Listing the requests *)

(** The string an item holds under [key], when it holds a string there. *)
Definition attr_str (item : dict) (key : string) : option string :=
  match item !! key with
  | Some (VStr s) => Some s
  | _ => None
  end.

(** The order in which the service walks a table. *)
Definition scan_order (tbl : table) : list dict := (map_to_list tbl).*2.

(** [Limit=limit]: botocore refuses a limit below one before any request is
    sent. *)
Definition check_limit (limit : Z) : outcome nat :=
  if (limit <? 1)%Z
  then Raise (Exception
         "Parameter validation failed: Invalid value for parameter Limit")
  else Return (Z.to_nat limit).

(** [table.scan(Limit=limit)], with the filter [#status = :status] when a
    status is given, then [response.get("Items", [])]. One request is made:
    [limit] items are read, and the filter is applied to what was read. *)
Definition scan (name : string) (status : option string) (limit : Z)
  : call (list dict) :=
  fun st =>
    match check_limit limit with
    | Raise e => (Raise e, st)
    | Return n =>
        match dynamodb st !! name with
        | None => (Raise not_found, st)
        | Some tbl =>
            let read := take n (scan_order tbl) in
            (Return
               match status with
               | Some s => filter (fun item => attr_str item "status" = Some s) read
               | None => read
               end,
             st)
        end
    end.

(** An item is in [client-status-index] under the keys it holds as strings. *)
Definition index_keys (item : dict) : option (string * string) :=
  match attr_str item "client_id", attr_str item "status" with
  | Some c, Some s => Some (c, s)
  | _, _ => None
  end.

(** The key condition of a query of the index: the client, and the status
    when one is given. *)
Definition key_condition (client_id : string) (status : option string)
    (item : dict) : Prop :=
  match index_keys item with
  | Some (c, s) => c = client_id /\ (status = None \/ status = Some s)
  | None => False
  end.

#[global] Instance key_condition_dec client_id status item :
  Decision (key_condition client_id status item).
Proof. unfold key_condition. destruct (index_keys item) as [[c s]|]; apply _. Defined.

(** The index is sorted by its range key, [status]. *)
Definition status_le (a b : dict) : Prop :=
  String.leb (default "" (attr_str a "status"))
             (default "" (attr_str b "status")) = true.

#[global] Instance status_le_dec a b : Decision (status_le a b).
Proof. unfold status_le. apply _. Defined.

(** [table.query(IndexName="client-status-index", ..., Limit=limit)], then
    [response.get("Items", [])] *)
Definition query_index (name client_id : string) (status : option string)
    (limit : Z) : call (list dict) :=
  fun st =>
    match check_limit limit with
    | Raise e => (Raise e, st)
    | Return n =>
        match dynamodb st !! name with
        | None => (Raise not_found, st)
        | Some tbl =>
            (Return
               (take n
                  (merge_sort status_le
                     (filter (key_condition client_id status) (scan_order tbl)))),
             st)
        end
    end.

Definition list_account_requests (client_id status : option string)
    (limit : Z) : call (list dict) :=
  try_except
    (table <- _get_table ;;
     if truthy_str client_id && truthy_str status
     then query_index table (default "" client_id) status limit
     else if truthy_str client_id
     then query_index table (default "" client_id) None limit
     else scan table (if truthy_str status then status else None) limit)
    (fun e =>
       raise (Exception ("Failed to list account requests: " +:+ str_exn e))).

End AFTManager.

(** ** The status commands ([lzaas/cli/commands/status.py]) *)

Module Status.
Import AFTManager.

(** Values as the keys of a Python dict. *)
#[global] Instance value_countable : Countable value.
Proof.
  refine (inj_countable'
    (fun v => match v with
              | VStr s => inl s
              | VNone => inr (inl tt)
              | VObj r t => inr (inr (r, t))
              end)
    (fun x => match x with
              | inl s => VStr s
              | inr (inl _) => VNone
              | inr (inr (r, t)) => VObj r t
              end) _).
  by intros [s| |r t].
Defined.

(** [req.get('status', 'unknown')] *)
Definition status_of (req : dict) : value :=
  default (VStr "unknown") (req !! "status").

(** The body of the loop of [overview] over the recent requests:
    [status_counts[status] = status_counts.get(status, 0) + 1] *)
Definition count_status (status_counts : gmap value nat) (req : dict)
  : gmap value nat :=
  let status := status_of req in
  <[status := default 0 (status_counts !! status) + 1]> status_counts.

Definition status_counts (recent_requests : list dict) : gmap value nat :=
  foldl count_status ∅ recent_requests.

(** The numbers of the overview table. *)
Record Overview := {
  total_requests : nat;
  pending : nat;
  in_progress : nat;
  completed : nat;
  failed : nat
}.

Definition overview_of (recent_requests : list dict) : Overview :=
  let counts := status_counts recent_requests in
  {| total_requests := length recent_requests;
     pending := default 0 (counts !! VStr "pending");
     in_progress := default 0 (counts !! VStr "in_progress");
     completed := default 0 (counts !! VStr "completed");
     failed := default 0 (counts !! VStr "failed") |}.

(** The first part of [overview]: the recent requests are listed with
    [limit=10] and counted; an exception ends the command with its
    message (the [inr] case). *)
Definition overview : call (Overview + string) :=
  try_except
    (recent_requests <- list_account_requests None None 10 ;;
     ret (inl (overview_of recent_requests)))
    (fun e => ret (inr (str_exn e))).

End Status.

(** ** The migration commands ([lzaas/cli/commands/migrate.py]) *)

Module Migrate.

(** *** The Organizations service *)

Record OU := {
  OU_Id : string;
  OU_Name : string
}.

Record Account := {
  Account_Id : string;
  Account_Name : string;
  Account_Email : string
}.

Record Parent := {
  Parent_Id : string;
  Parent_Type : string
}.

Record Root := {
  Root_Id : string;
  Root_Name : string
}.

(** What iterating a boto3 paginator yields: the pages are fetched one at a
    time, and a fetch may fail after earlier pages were delivered. *)
Inductive pages (A : Type) :=
| NoMorePages
| NextPage (page : list A) (rest : pages A)
| PageError (e : exn).
Arguments NoMorePages {A}.
Arguments NextPage {A} page rest.
Arguments PageError {A} e.

(** The Organizations client: what each read answers, and whether
    [move_account] accepts a move. The hierarchy is whatever the listing of
    children answers for each parent id; nothing makes it a tree. *)
Record organizations := {
  describe_account : string -> outcome Account;
  list_parents : string -> outcome (list Parent);
  list_roots : outcome (list Root);
  list_organizational_units_for_parent : string -> pages OU;
  list_accounts : pages Account;
  move_account : string -> string -> string -> outcome unit
}.

(** A [move_account] request: the account, the source parent and the
    destination parent. *)
Record MoveCall := {
  AccountId : string;
  SourceParentId : string;
  DestinationParentId : string
}.

#[global] Instance MoveCall_eq_dec : EqDecision MoveCall.
Proof. solve_decision. Defined.

(** What a recursive search gives: [Done], with a value or an exception,
    when it completes; [OutOfFuel] is for a definition that can stop short of
    an outcome. The searches of the commands always complete: the
    interpreter ends a recursion that is too deep with [RecursionError]. *)
Inductive run (A : Type) :=
| Done (r : outcome A)
| OutOfFuel.
Arguments Done {A} r.
Arguments OutOfFuel {A}.

(** [RecursionError], which the interpreter raises on a call that would
    make the stack deeper than its recursion limit. It is an [Exception]. *)
Definition RecursionError : exn :=
  Exception "maximum recursion depth exceeded".

(** *** [find_ou_by_name] *)

Section FindOU.

Variable orgs : organizations.

(** How the name of an OU is compared with the name looked for. *)
Variable same_name : string -> string -> bool.

(** The function called on each child OU (the recursive call). *)
Variable descend : string -> run (option string).

Variable ou_name : string.

(** [for ou in page["OrganizationalUnits"]: ...]; [None] when the loop
    ends without returning. *)
Fixpoint for_ou_in_page (page : list OU) : option (run (option string)) :=
  match page with
  | [] => None
  | ou :: page' =>
      if same_name (OU_Name ou) ou_name
      then Some (Done (Return (Some (OU_Id ou))))
      else
        match descend (OU_Id ou) with
        | Done (Return child_ou_id) =>
            if truthy_str child_ou_id
            then Some (Done (Return child_ou_id))
            else for_ou_in_page page'
        | Done (Raise e) => Some (Done (Raise e))
        | OutOfFuel => Some OutOfFuel
        end
  end.

(** [for page in paginator.paginate(ParentId=parent_id): ...], then
    [return None] *)
Fixpoint for_page_in_pages (ps : pages OU) : run (option string) :=
  match ps with
  | NoMorePages => Done (Return None)
  | PageError e => Done (Raise e)
  | NextPage page rest =>
      match for_ou_in_page page with
      | Some r => r
      | None => for_page_in_pages rest
      end
  end.

End FindOU.

(** The two definitions of [find_ou_by_name] have the same body up to the
    comparison of names. The function has no bound of its own on the depth
    of the recursion; [fuel] is the number of nested calls the interpreter
    still allows, and the call beyond them raises [RecursionError], which
    nothing inside the function catches. *)
Fixpoint find_ou_by_name_with (same_name : string -> string -> bool)
    (orgs : organizations) (fuel : nat) (parent_id ou_name : string)
  : run (option string) :=
  match fuel with
  | O => Done (Raise RecursionError)
  | S fuel' =>
      for_page_in_pages same_name
        (fun child => find_ou_by_name_with same_name orgs fuel' child ou_name)
        ou_name
        (list_organizational_units_for_parent orgs parent_id)
  end.

(** What the commands report when they end. *)
Inductive report :=
| InvalidAccountId
| InvalidOUName
| AccountInfoFailed (e : exn)
| AccountNotFound
| AccountSearchFailed (e : exn)
| CurrentParentFailed (e : exn)
| TargetOUNotFound
| FindTargetFailed (e : exn)
| DryRun (would_execute : MoveCall)
| Cancelled
| Moved
| MoveFailed (e : exn)
| CommandError (e : exn).

(** [account_id.isdigit() and len(account_id) == 12], with the digits of
    the ASCII range. *)
Definition is_account_id (s : string) : bool :=
  isdigit s && (String.length s =? 12)%nat.

(** [current_parent["Id"]]: a [TypeError] when [current_parent] is [None]. *)
Definition parent_id_of (current_parent : option Parent) : outcome string :=
  match current_parent with
  | Some p => Return (Parent_Id p)
  | None => Raise (TypeError "'NoneType' object is not subscriptable")
  end.

(** [roots["Roots"][0]["Id"]] after [list_roots()] *)
Definition first_root_id (orgs : organizations) : outcome string :=
  match list_roots orgs with
  | Raise e => Raise e
  | Return [] => Raise (IndexError "list index out of range")
  | Return (root :: _) => Return (Root_Id root)
  end.

(** The end of both commands, from the dry-run test on: the report and the
    [move_account] requests sent. Printing the dry-run line reads
    [current_parent['Id']] under the command's outer [try]; the live path
    reads it while building the arguments of [move_account], under the
    [try] around the move. *)
Definition plan_and_move (orgs : organizations) (account_id : string)
    (current_parent : option Parent) (target_ou_id : string)
    (dry_run confirm : bool) : report * list MoveCall :=
  if dry_run then
    match parent_id_of current_parent with
    | Raise e => (CommandError e, [])
    | Return source =>
        (DryRun {| AccountId := account_id; SourceParentId := source;
                   DestinationParentId := target_ou_id |}, [])
    end
  else if negb confirm then (Cancelled, [])
  else
    match parent_id_of current_parent with
    | Raise e => (MoveFailed e, [])
    | Return source =>
        let request := {| AccountId := account_id; SourceParentId := source;
                          DestinationParentId := target_ou_id |} in
        match move_account orgs account_id source target_ou_id with
        | Return _ => (Moved, [request])
        | Raise e => (MoveFailed e, [request])
        end
    end.

(** *** [existing_ou] *)

Module ExistingOu.

(** Lines 263-272: names are compared with [==]. *)
Definition find_ou_by_name := find_ou_by_name_with String.eqb.

Section Command.

(** [validate_ou_name] of [lzaas.utils.validators], which is not among the
    sources. *)
Variable validate_ou_name : string -> bool.

(** [confirm] is the operator's answer to [click.confirm], asked only on
    the live path; [fuel] is the depth of recursion the interpreter allows
    the search. The result is the report and the [move_account] requests
    sent. The search runs under the [try] of lines 251-284, whose handler
    takes every [Exception], a [RecursionError] among them, and reports that
    the target OU could not be found. *)
Definition existing_ou (fuel : nat) (orgs : organizations)
    (account_id target_ou : string) (dry_run confirm : bool)
  : run report * list MoveCall :=
  if negb (is_account_id account_id) then (Done (Return InvalidAccountId), [])
  else if negb (validate_ou_name target_ou) then (Done (Return InvalidOUName), [])
  else
    match describe_account orgs account_id with
    | Raise e => (Done (Return (AccountInfoFailed e)), [])
    | Return account =>
        match list_parents orgs account_id with
        | Raise e => (Done (Return (CurrentParentFailed e)), [])
        | Return parents =>
            let current_parent := head parents in
            match first_root_id orgs with
            | Raise e => (Done (Return (FindTargetFailed e)), [])
            | Return root_id =>
                match find_ou_by_name orgs fuel root_id target_ou with
                | OutOfFuel =>
                    (Done (Return (FindTargetFailed RecursionError)), [])
                | Done (Raise e) => (Done (Return (FindTargetFailed e)), [])
                | Done (Return target_ou_id) =>
                    if negb (truthy_str target_ou_id)
                    then (Done (Return TargetOUNotFound), [])
                    else
                      let '(r, moves) :=
                        plan_and_move orgs account_id current_parent
                          (default "" target_ou_id) dry_run confirm in
                      (Done (Return r), moves)
                end
            end
        end
    end.

End Command.

End ExistingOu.

(** *** [simple] *)

Module Simple.

(** Lines 427-436: both names are lower-cased before the comparison. *)
Definition find_ou_by_name :=
  find_ou_by_name_with (fun a b => String.eqb (lower a) (lower b)).

(** [for account in page['Accounts']: ...] of lines 401-405, on the pair
    [(account_id, account_name)]. *)
Fixpoint for_account_in_page (source : string) (page : list Account)
    (found : option string * option string) : option string * option string :=
  match page with
  | [] => found
  | account :: page' =>
      if String.eqb (lower (Account_Name account)) (lower source)
      then (Some (Account_Id account), Some (Account_Name account))
      else for_account_in_page source page' found
  end.

(** [for page in paginator.paginate(): ...] of lines 400-407 *)
Fixpoint for_page_in_accounts (source : string) (ps : pages Account)
    (found : option string * option string)
  : outcome (option string * option string) :=
  match ps with
  | NoMorePages => Return found
  | PageError e => Raise e
  | NextPage page rest =>
      let found' := for_account_in_page source page found in
      if truthy_str (fst found') then Return found'
      else for_page_in_accounts source rest found'
  end.

(** Lines 383-417: the source account, as [(account_id, account_name)], or
    the report the command ends with. *)
Definition find_source_account (orgs : organizations) (source : string)
  : report + (string * string) :=
  if is_account_id source then
    match describe_account orgs source with
    | Return account_info => inr (source, Account_Name account_info)
    | Raise e => inl (AccountInfoFailed e)
    end
  else
    match for_page_in_accounts source (list_accounts orgs) (None, None) with
    | Raise e => inl (AccountSearchFailed e)
    | Return (account_id, account_name) =>
        if negb (truthy_str account_id) then inl AccountNotFound
        else inr (default "" account_id, default "" account_name)
    end.

(** The search for the target OU runs under the [try] of lines 421-449,
    whose handler takes every [Exception], a [RecursionError] among them. *)
Definition simple (fuel : nat) (orgs : organizations)
    (source target : string) (dry_run confirm : bool)
  : run report * list MoveCall :=
  match find_source_account orgs source with
  | inl r => (Done (Return r), [])
  | inr (account_id, account_name) =>
      match first_root_id orgs with
      | Raise e => (Done (Return (FindTargetFailed e)), [])
      | Return root_id =>
          match find_ou_by_name orgs fuel root_id target with
          | OutOfFuel => (Done (Return (FindTargetFailed RecursionError)), [])
          | Done (Raise e) => (Done (Return (FindTargetFailed e)), [])
          | Done (Return target_ou_id) =>
              if negb (truthy_str target_ou_id)
              then (Done (Return TargetOUNotFound), [])
              else
                match list_parents orgs account_id with
                | Raise e => (Done (Return (CurrentParentFailed e)), [])
                | Return parents =>
                    let current_parent := head parents in
                    let '(r, moves) :=
                      plan_and_move orgs account_id current_parent
                        (default "" target_ou_id) dry_run confirm in
                    (Done (Return r), moves)
                end
          end
      end
  end.

End Simple.

(** *** [list_ous] *)

(** An entry of the list [get_ous_recursive] builds. *)
Record OUEntry := {
  entry_name : string;
  entry_id : string;
  entry_level : nat;
  entry_display : string
}.

(** [("  " * level)] *)
Fixpoint indent (level : nat) : string :=
  match level with
  | O => ""
  | S level' => "  " +:+ indent level'
  end.

Definition entry_of (level : nat) (ou : OU) : OUEntry :=
  {| entry_name := OU_Name ou;
     entry_id := OU_Id ou;
     entry_level := level;
     entry_display :=
       indent level +:+ "├─ " +:+ OU_Name ou +:+ " (" +:+ OU_Id ou +:+ ")" |}.

(** A warning printed by [get_ous_recursive]: the name of the parent whose
    children could not be listed, and the message of the exception. *)
Definition warning : Type := string * string.

Section GetOus.

(** The recursive call on a child OU; [None] when it needs a deeper call
    stack. The function catches every exception itself, so that a call
    that returns, returns a list. *)
Variable descend : OU -> option (list OUEntry * list warning).

Variable parent_name : string.
Variable level : nat.

(** [for ou in page["OrganizationalUnits"]: ...], on the list [ous] and
    the warnings printed so far. *)
Fixpoint gather_page (page : list OU) (acc : list OUEntry * list warning)
  : option (list OUEntry * list warning) :=
  match page with
  | [] => Some acc
  | ou :: page' =>
      match descend ou with
      | None => None
      | Some (child_ous, child_warnings) =>
          gather_page page'
            (acc.1 ++ entry_of level ou :: child_ous, acc.2 ++ child_warnings)
      end
  end.

(** [for page in paginator.paginate(ParentId=parent_id): ...] under the
    [try]: an exception ends the loops, is printed as a warning, and the
    list gathered so far is returned. *)
Fixpoint gather_pages (ps : pages OU) (acc : list OUEntry * list warning)
  : option (list OUEntry * list warning) :=
  match ps with
  | NoMorePages => Some acc
  | PageError e => Some (acc.1, acc.2 ++ [(parent_name, str_exn e)])
  | NextPage page rest =>
      match gather_page page acc with
      | None => None
      | Some acc' => gather_pages rest acc'
      end
  end.

End GetOus.

Fixpoint get_ous_recursive (orgs : organizations) (fuel : nat)
    (parent_id parent_name : string) (level : nat)
  : option (list OUEntry * list warning) :=
  match fuel with
  | O => None
  | S fuel' =>
      gather_pages
        (fun ou =>
           get_ous_recursive orgs fuel' (OU_Id ou) (OU_Name ou) (S level))
        parent_name level
        (list_organizational_units_for_parent orgs parent_id) ([], [])
  end.

(** What [list_ous] prints: the root and the display lines of the OUs (none
    when no OU was found), with the warnings printed on the way, or the
    error the command ends with. *)
Inductive ous_report :=
| OusListed (root_name root_id : string) (lines : list string)
            (warnings : list warning)
| OusError (e : exn).

Definition list_ous (orgs : organizations) (fuel : nat) : option ous_report :=
  match list_roots orgs with
  | Raise e => Some (OusError e)
  | Return [] => Some (OusError (IndexError "list index out of range"))
  | Return (root :: _) =>
      match get_ous_recursive orgs fuel (Root_Id root) (Root_Name root) 0 with
      | None => None
      | Some (all_ous, warnings) =>
          Some (OusListed (Root_Name root) (Root_Id root)
                  (entry_display <$> all_ous) warnings)
      end
  end.

(** *** [account] *)

Module Account.
Import AFTManager.

(** [c.isspace()] on the ASCII range. *)
Definition is_space (c : Ascii.ascii) : bool :=
  let n := Ascii.nat_of_ascii c in
  ((9 <=? n)%nat && (n <=? 13)%nat) || ((28 <=? n)%nat && (n <=? 32)%nat).

(** [s.split()], with [word] the characters of the word being read. *)
Fixpoint split_from (word s : string) : list string :=
  match s with
  | EmptyString => if String.eqb word "" then [] else [word]
  | String c s' =>
      if is_space c
      then if String.eqb word "" then split_from "" s'
           else word :: split_from "" s'
      else split_from (word +:+ String c "") s'
  end.

Definition split (s : string) : list string := split_from "" s.

(** A value of the [aft_request] dict: a string, or a dict of strings. *)
Inductive json :=
| JStr (s : string)
| JDict (fields : list (string * string)).

(** [account_name.split()[0] if " " in account_name else account_name] *)
Definition first_name (account_name : string) : outcome string :=
  if contains " " account_name then
    match head (split account_name) with
    | Some w => Return w
    | None => Raise (IndexError "list index out of range")
    end
  else Return account_name.

(** [account_name.split()[-1] if " " in account_name else "User"] *)
Definition last_name (account_name : string) : outcome string :=
  if contains " " account_name then
    match last (split account_name) with
    | Some w => Return w
    | None => Raise (IndexError "list index out of range")
    end
  else Return "User".

(** The [aft_request] dict of the dry run. *)
Definition aft_request (account_id account_name email target_ou client_id : string)
  : outcome (list (string * json)) :=
  match first_name account_name with
  | Raise e => Raise e
  | Return first =>
      match last_name account_name with
      | Raise e => Raise e
      | Return last =>
          Return
            [("control_tower_parameters", JDict
                [("AccountEmail", email);
                 ("AccountName", account_name);
                 ("ManagedOrganizationalUnit", target_ou);
                 ("SSOUserEmail", email);
                 ("SSOUserFirstName", first);
                 ("SSOUserLastName", last)]);
             ("account_tags", JDict
                [("client", client_id);
                 ("migration", "true");
                 ("original_account_id", account_id)]);
             ("account_customizations_name", JStr "migration-customization");
             ("custom_fields", JDict
                [("migration_source", "existing_account");
                 ("original_account_id", account_id);
                 ("migration_date", "2025-01-10")])]
      end
  end.

Inductive account_report :=
| InvalidEmail
| InvalidTargetOU
| InvalidId
| Preview (aft_request : list (string * json))
| MigrationCancelled
| RequestCreated (request_id : string)
| RequestFailed (error : string)
| RequestError (e : exn).

Section Command.

(** [validate_email] and [validate_ou_name] of [lzaas.utils.validators],
    which is not among the sources. *)
Variable validate_email : string -> bool.
Variable validate_ou_name : string -> bool.

(** The fields [AccountRequest.to_dict] writes besides the key, from the
    arguments the command gives the constructor ([template], [email],
    [name], [client_id], [requested_by], [ou], [customizations]);
    [lzaas/core/models.py] is not among the sources. *)
Variable request_fields :
  string -> string -> string -> string -> string -> string ->
  list (string * string) -> dict.

(** [user] is [ctx.obj.get("user")], [today] is
    [datetime.now().strftime('%Y-%m-%d')] and [uuid4] is
    [str(uuid.uuid4())] at the time of the call; [confirm] is the
    operator's answer, asked only on the live path. What the command
    prints is left out: [rich] raises on a text with a closing tag that
    nothing opened, and the statements about a run that goes past the
    printed plan take the inputs without an opening square bracket. *)
Definition account (user : option string) (today uuid4 : string)
    (account_id account_name email target_ou client_id : string)
    (dry_run confirm : bool) : call account_report :=
  if negb (validate_email email) then ret InvalidEmail
  else if negb (validate_ou_name target_ou) then ret InvalidTargetOU
  else if negb (is_account_id account_id) then ret InvalidId
  else if dry_run then
    match aft_request account_id account_name email target_ou client_id with
    | Return preview => ret (Preview preview)
    | Raise e => ret (RequestError e)
    end
  else if negb confirm then ret MigrationCancelled
  else
    let request_id :=
      "migrate-" +:+ today +:+ "-" +:+ String.substring 0 8 uuid4 in
    let migration_request :=
      {| request_id := request_id;
         body :=
           request_fields "client" email account_name client_id
             (default "cli-user" user) target_ou
             [("migration_source", "existing_account");
              ("original_account_id", account_id);
              ("migration_type", "ou_change")] |} in
    result <- create_account_request migration_request ;;
    match result with
    | Created request_id _ => ret (RequestCreated request_id)
    | Failed error => ret (RequestFailed error)
    | Updated _ | Deleted _ =>
        ret (RequestError (Exception "'request_id'"))
    end.

End Command.

End Account.

End Migrate.

(** ** Reference definitions for the ledger *)

Module LedgerSpec.
Import AFTManager.

(** The assignment the loop of [update_account_request] writes for a key. *)
Definition assignment_of (kv : string * value) : path * string :=
  if decide (kv.1 = "status") then (NameRef "#status", ":status")
  else (Attr kv.1, ":" +:+ kv.1).

(** The values and the names the loop has collected after the pairs [l]. *)
Definition values_of (vs : dict) (l : list (string * value)) : dict :=
  foldl (fun vs kv => <[":" +:+ kv.1 := kv.2]> vs) vs l.

Definition names_of (ns : gmap string string) (l : list (string * value))
  : gmap string string :=
  foldl (fun ns kv =>
           if decide (kv.1 = "status") then <["#status" := "status"]> ns else ns)
        ns l.

(** The item after the assignments of [l], in the order of [l]. *)
Definition assign_all (item : dict) (l : list (string * value)) : dict :=
  foldl (fun it kv => <[kv.1 := kv.2]> it) item l.

(** The record an update starts from: the stored one, or the key alone. *)
Definition record_before (request_id : string) (tbl : table) : dict :=
  default {[ "request_id" := VStr request_id ]} (tbl !! request_id).

(** The record after an accepted update: the given fields and the stamp,
    over the record the update starts from. *)
Definition updated_record (now request_id : string) (updates : dict)
    (tbl : table) : dict :=
  <["updated_date" := VStr now]> updates ∪ record_before request_id tbl.

End LedgerSpec.

(** ** Reference definitions for the hierarchy and the commands *)

Module Hierarchy.
Import Migrate.

(** The items of the pages delivered before the listing ends or fails. *)
Fixpoint listed {A} (ps : pages A) : list A :=
  match ps with
  | NoMorePages => []
  | PageError _ => []
  | NextPage page rest => page ++ listed rest
  end.

(** The whole listing, fetched to its end before anything else is done. *)
Fixpoint exhaust {A} (ps : pages A) : outcome (list A) :=
  match ps with
  | NoMorePages => Return []
  | PageError e => Raise e
  | NextPage page rest =>
      match exhaust rest with
      | Return l => Return (page ++ l)
      | Raise e => Raise e
      end
  end.

Definition children (orgs : organizations) (parent_id : string) : list OU :=
  listed (list_organizational_units_for_parent orgs parent_id).

(** Every chain of children below [parent_id] has fewer than [d] links. *)
Fixpoint depth_within (orgs : organizations) (d : nat) (parent_id : string)
  : bool :=
  match d with
  | O => false
  | S d' =>
      forallb (fun ou => depth_within orgs d' (OU_Id ou)) (children orgs parent_id)
  end.

(** Down to depth [d] below [parent_id], every listing ends without an error
    and every OU has a non-empty id. *)
Fixpoint listings_sound (orgs : organizations) (d : nat) (parent_id : string)
  : bool :=
  match d with
  | O => true
  | S d' =>
      match exhaust (list_organizational_units_for_parent orgs parent_id) with
      | Raise _ => false
      | Return ous =>
          forallb (fun ou => negb (String.eqb (OU_Id ou) "")
                             && listings_sound orgs d' (OU_Id ou)) ous
      end
  end.

(** The OUs below [parent_id] in depth-first pre-order: each OU, then all
    that is below it, then its next sibling. *)
Fixpoint preorder (orgs : organizations) (d : nat) (parent_id : string)
  : list OU :=
  match d with
  | O => []
  | S d' =>
      flat_map (fun ou => ou :: preorder orgs d' (OU_Id ou))
               (children orgs parent_id)
  end.

(** The id of the first OU in pre-order whose name is the one looked for. *)
Definition first_in_preorder (same_name : string -> string -> bool)
    (orgs : organizations) (d : nat) (parent_id ou_name : string)
  : option string :=
  OU_Id <$> List.find (fun x => same_name (OU_Name x) ou_name)
              (preorder orgs d parent_id).

(** What the recursive call answers on the child [x] when it is right: the
    first OU of that name among [below x], whose id is not empty. *)
Definition answers (same_name : string -> string -> bool) (ou_name : string)
    (descend : string -> run (option string)) (below : OU -> list OU)
    (x : OU) : Prop :=
  descend (OU_Id x) =
    Done (Return (OU_Id <$> List.find (fun y => same_name (OU_Name y) ou_name)
                              (below x))) /\
  forall y, List.find (fun y => same_name (OU_Name y) ou_name) (below x) = Some y ->
            OU_Id y <> "".

(** Descend into the children in order, until one search answers an id. *)
Fixpoint first_below (descend : string -> run (option string))
    (ous : list OU) : run (option string) :=
  match ous with
  | [] => Done (Return None)
  | ou :: ous' =>
      match descend (OU_Id ou) with
      | Done (Return child_ou_id) =>
          if truthy_str child_ou_id then Done (Return child_ou_id)
          else first_below descend ous'
      | other => other
      end
  end.

(** The traversal in the words of the spec: the paginated listing of a node
    is consumed to its end and all the siblings are compared before any
    child is descended into. *)
Fixpoint resolve_siblings_first (same_name : string -> string -> bool)
    (orgs : organizations) (fuel : nat) (parent_id ou_name : string)
  : run (option string) :=
  match fuel with
  | O => OutOfFuel
  | S fuel' =>
      match exhaust (list_organizational_units_for_parent orgs parent_id) with
      | Raise e => Done (Raise e)
      | Return ous =>
          match List.find (fun ou => same_name (OU_Name ou) ou_name) ous with
          | Some ou => Done (Return (Some (OU_Id ou)))
          | None =>
              first_below
                (fun child =>
                   resolve_siblings_first same_name orgs fuel' child ou_name)
                ous
          end
      end
  end.

(** The request [mv] is the one a successful planning for [account_id] and
    [target] arrives at: the first parent listed for the account is its
    source, and the search from the first root answers its destination. *)
Definition planned
    (find : organizations -> nat -> string -> string -> run (option string))
    (orgs : organizations) (fuel : nat) (account_id target : string)
    (mv : MoveCall) : Prop :=
  AccountId mv = account_id /\
  (exists p ps, list_parents orgs account_id = Return (p :: ps) /\
                SourceParentId mv = Parent_Id p) /\
  (exists root_id, first_root_id orgs = Return root_id /\
     find orgs fuel root_id target = Done (Return (Some (DestinationParentId mv)))) /\
  DestinationParentId mv <> "".

(** What both commands do once planning arrived at [mv]: the report, and the
    [move_account] requests sent. *)
Definition after_planning (orgs : organizations) (mv : MoveCall)
    (dry_run confirm : bool) : run report * list MoveCall :=
  if dry_run then (Done (Return (DryRun mv)), [])
  else if confirm then
    match move_account orgs (AccountId mv) (SourceParentId mv)
            (DestinationParentId mv) with
    | Return _ => (Done (Return Moved), [mv])
    | Raise e => (Done (Return (MoveFailed e)), [mv])
    end
  else (Done (Return Cancelled), []).

(** What the search by name holds: nothing yet, or an account whose name is
    the source up to letter case. *)
Definition found_by_name (source : string)
    (found : option string * option string) : Prop :=
  forall name, found.2 = Some name ->
    String.eqb (lower name) (lower source) = true.

End Hierarchy.

(** ** Sample data *)

Module Samples.
Import AFTManager Migrate.

(** A sample of the names DynamoDB reserves. *)
Definition reserved_sample (n : string) : bool :=
  bool_decide (n ∈ ["status"; "name"; "comment"; "timestamp"]).

Definition pending_request : dict :=
  <["request_id" := VStr "migrate-2025-01-10-abc12345"]>
  (<["status" := VStr "pending"]>
  (<["client_id" := VStr "acme"]>
  (<["email" := VStr "ops@acme.example"]> ∅))).

Definition ledger_table : table :=
  <["migrate-2025-01-10-abc12345" := pending_request]> ∅.

Definition in_progress_pipeline : Pipeline :=
  {| pipeline_name := "aft-account-provisioning";
     pipelineExecutionSummaries :=
       [ {| pipelineExecutionId := "exec-0001";
            execution_status := "InProgress" |} ] |}.

(** An account with the table, one pending request, and a pipeline whose
    latest execution is in progress. *)
Definition sample_aws : aws :=
  {| dynamodb := <[table_name := ledger_table]> ∅;
     codepipeline := [in_progress_pipeline] |}.

(** An account in which the table was never created. *)
Definition empty_aws : aws := {| dynamodb := ∅; codepipeline := [] |}.

(** What the call of [_create_table] raises: the index of the call has the
    member [BillingMode], which botocore does not know there. *)
Definition table_refused : exn :=
  Exception
    ("Parameter validation failed: Unknown parameter in " +:+
     "GlobalSecondaryIndexes[0]: BillingMode").

Definition colliding_request : AccountRequest :=
  {| request_id := "migrate-2025-01-10-abc12345";
     body := <["status" := VStr "pending"]>
             (<["client_id" := VStr "other"]> ∅) |}.

Definition completed : dict := <["status" := VStr "completed"]> ∅.

Definition ou (id name : string) : OU := {| OU_Id := id; OU_Name := name |}.

Definition one_page {A} (l : list A) : pages A := NextPage l NoMorePages.

Definition acme_account : Account :=
  {| Account_Id := "111122223333"; Account_Name := "acme-prod";
     Account_Email := "ops@acme.example" |}.

(** An account whose name is twelve digits, the id of another account. *)
Definition digits_account : Account :=
  {| Account_Id := "444455556666"; Account_Name := "111122223333";
     Account_Email := "digits@acme.example" |}.

(** An organization over a given listing of children: [describe_account]
    knows [acme_account], every account has the parent [parent], the root is
    [r-root], and moves are accepted. *)
Definition org_with (parent : string) (listing : string -> pages OU)
  : organizations :=
  {| describe_account := fun id =>
       if String.eqb id "111122223333" then Return acme_account
       else Raise (ClientError "AccountNotFoundException" "no such account");
     list_parents := fun _ =>
       Return [ {| Parent_Id := parent; Parent_Type := "ORGANIZATIONAL_UNIT" |} ];
     list_roots := Return [ {| Root_Id := "r-root"; Root_Name := "Root" |} ];
     list_organizational_units_for_parent := listing;
     list_accounts := one_page [digits_account; acme_account];
     move_account := fun _ _ _ => Return tt |}.

(** [root -> {A, B}], [A -> {Sandbox}], [B -> {Sandbox}]; [A] and [B] come
    on two pages. *)
Definition two_sandboxes (parent_id : string) : pages OU :=
  if String.eqb parent_id "r-root"
  then NextPage [ou "ou-a" "A"] (NextPage [ou "ou-b" "B"] NoMorePages)
  else if String.eqb parent_id "ou-a" then one_page [ou "ou-a-sandbox" "Sandbox"]
  else if String.eqb parent_id "ou-b" then one_page [ou "ou-b-sandbox" "Sandbox"]
  else NoMorePages.

(** [root -> {A, Sandbox}], [A -> {Sandbox}]: the same name at two depths. *)
Definition sandbox_at_two_depths (parent_id : string) : pages OU :=
  if String.eqb parent_id "r-root"
  then one_page [ou "ou-a" "A"; ou "ou-top-sandbox" "Sandbox"]
  else if String.eqb parent_id "ou-a" then one_page [ou "ou-deep-sandbox" "Sandbox"]
  else NoMorePages.

(** [root -> {A, ...}] where the second page of the root fails;
    [A -> {Sandbox}]. *)
Definition second_page_fails (parent_id : string) : pages OU :=
  if String.eqb parent_id "r-root"
  then NextPage [ou "ou-a" "A"]
         (PageError (ClientError "TooManyRequestsException" "throttled"))
  else if String.eqb parent_id "ou-a" then one_page [ou "ou-deep-sandbox" "Sandbox"]
  else NoMorePages.


Definition always_valid (name : string) : bool := true.

End Samples.

(** ** Further reference definitions and sample data *)

Module Views.
Import AFTManager Migrate Hierarchy Samples.

(** The records of the ledger: those of the table, none when the table
    does not exist. *)
Definition ledger (st : aws) : table := default ∅ (dynamodb st !! table_name).

(** The account after the ledger is set to [tbl]. *)
Definition with_ledger (tbl : table) (st : aws) : aws :=
  with_dynamodb (<[table_name := tbl]> (dynamodb st)) st.

(** The keyword arguments [update_account_request] builds from the pairs
    [l] of the stamped updates. *)
Definition kwargs_of (request_id : string) (l : list (string * value))
  : update_kwargs :=
  {| Key := request_id;
     UpdateExpression := LedgerSpec.assignment_of <$> l;
     ExpressionAttributeValues := LedgerSpec.values_of ∅ l;
     ExpressionAttributeNames :=
       if decide (LedgerSpec.names_of ∅ l = ∅) then None
       else Some (LedgerSpec.names_of ∅ l) |}.

(** A value that is a string or [None]. *)
Definition plain (v : value) : bool :=
  match v with
  | VObj _ _ => false
  | _ => true
  end.

(** The OU an entry of [list_ous] stands for. *)
Definition ou_of_entry (e : OUEntry) : OU :=
  {| OU_Id := entry_id e; OU_Name := entry_name e |}.

(** No two OUs below [parent_id] have the same name up to letter case. *)
Definition names_distinct (orgs : organizations) (d : nat)
    (parent_id : string) : Prop :=
  NoDup ((fun x => lower (OU_Name x)) <$> preorder orgs d parent_id).

(** A text without an opening square bracket, which [rich] prints as it
    is: it holds no markup tag, so that printing it cannot raise
    [MarkupError]. *)
Definition no_markup (s : string) : bool := negb (contains "[" s).

(** Every character of [s] is white space. *)
Fixpoint all_space (s : string) : bool :=
  match s with
  | EmptyString => true
  | String c s' => Account.is_space c && all_space s'
  end.

(** Requests of three clients, in three states. *)
Definition request (id client status : string) : dict :=
  <["request_id" := VStr id]>
  (<["client_id" := VStr client]>
  (<["status" := VStr status]> ∅)).

Definition busy_table : table :=
  <["req-1" := request "req-1" "acme" "pending"]>
  (<["req-2" := request "req-2" "acme" "completed"]>
  (<["req-3" := request "req-3" "globex" "pending"]>
  (<["req-4" := request "req-4" "acme" "pending"]> ∅))).

Definition busy_aws : aws :=
  {| dynamodb := <[table_name := busy_table]> ∅; codepipeline := [] |}.

(** [root -> {Prod, Dev}], [Dev -> {Sandbox}]: all names differ. *)
Definition distinct_units (parent_id : string) : pages OU :=
  if String.eqb parent_id "r-root"
  then NextPage [ou "ou-prod" "Prod"] (NextPage [ou "ou-dev" "Dev"] NoMorePages)
  else if String.eqb parent_id "ou-dev" then one_page [ou "ou-sandbox" "Sandbox"]
  else NoMorePages.

(** [root -> {Prod, Dev, ...}] where the page after [Dev] fails, and the
    children of [Prod] cannot be listed; [Dev -> {Sandbox}]. *)
Definition flaky_units (parent_id : string) : pages OU :=
  if String.eqb parent_id "r-root"
  then NextPage [ou "ou-prod" "Prod"; ou "ou-dev" "Dev"]
         (PageError (ClientError "TooManyRequestsException" "throttled"))
  else if String.eqb parent_id "ou-prod"
  then PageError (ClientError "AccessDeniedException" "denied")
  else if String.eqb parent_id "ou-dev" then one_page [ou "ou-sandbox" "Sandbox"]
  else NoMorePages.

(** Two accounts with the same name up to letter case, on two pages. *)
Definition twin_accounts : pages Account :=
  NextPage
    [ {| Account_Id := "222233334444"; Account_Name := "Billing";
         Account_Email := "billing@acme.example" |};
      {| Account_Id := "555566667777"; Account_Name := "Acme-Prod";
         Account_Email := "one@acme.example" |} ]
    (NextPage
       [ {| Account_Id := "888899990000"; Account_Name := "acme-prod";
            Account_Email := "two@acme.example" |} ]
       NoMorePages).

Definition org_of_accounts (accounts : pages Account) : organizations :=
  {| describe_account := describe_account (org_with "ou-prod" distinct_units);
     list_parents := list_parents (org_with "ou-prod" distinct_units);
     list_roots := list_roots (org_with "ou-prod" distinct_units);
     list_organizational_units_for_parent := distinct_units;
     list_accounts := accounts;
     move_account := move_account (org_with "ou-prod" distinct_units) |}.

Definition no_fields (template email name client_id requested_by target_ou : string)
    (customizations : list (string * string)) : dict :=
  <["email" := VStr email]> (<["status" := VStr "pending"]> ∅).

End Views.

(** ** Properties of the request ledger *)

Module LedgerFacts.
Import AFTManager LedgerSpec Samples.

(** *** The table handle *)

Lemma _get_table_exists st tbl :
  dynamodb st !! table_name = Some tbl ->
  _get_table st = (Return table_name, st).
Proof.
  intros Htbl. unfold _get_table, try_except, bind, load, ret.
  by rewrite Htbl.
Qed.

(** The call of [_create_table] is refused before any request is sent,
    whatever the account holds: no table is ever created. *)
Lemma _create_table_refused st : _create_table st = (Raise table_refused, st).
Proof. reflexivity. Qed.

Lemma _get_table_missing st :
  dynamodb st !! table_name = None ->
  _get_table st = (Raise table_refused, st).
Proof.
  intros Htbl.
  unfold _get_table, try_except, bind, load, ret, not_found.
  rewrite Htbl. simpl. apply _create_table_refused.
Qed.

(** *** [get_account_request] *)

Lemma get_account_request_exists st tbl request_id :
  dynamodb st !! table_name = Some tbl ->
  get_account_request request_id st = (Return (tbl !! request_id), st).
Proof.
  intros Htbl. unfold get_account_request, try_except, bind.
  rewrite (_get_table_exists st tbl Htbl).
  unfold get_item. by rewrite Htbl.
Qed.

Lemma get_account_request_missing st request_id :
  dynamodb st !! table_name = None ->
  get_account_request request_id st =
    (Raise (Exception
       ("Failed to get account request: " +:+ str_exn table_refused)), st).
Proof.
  intros Htbl. unfold get_account_request, try_except, bind.
  by rewrite (_get_table_missing st Htbl).
Qed.




(** *** [create_account_request] *)

Lemma to_dict_key (r : AccountRequest) :
  to_dict r !! "request_id" = Some (VStr (request_id r)).
Proof. unfold to_dict. apply lookup_insert_eq. Qed.

(** C1, as the code has it: for every request already stored, a put of a
    request with the same [request_id] reports success and replaces the
    stored record with the new one; the records under other keys stay. *)
Theorem create_account_request_replaces (st : aws) (tbl : table)
    (old : dict) (r : AccountRequest) :
  dynamodb st !! table_name = Some tbl ->
  tbl !! request_id r = Some old ->
  create_account_request r st =
    (Return (Created (request_id r) "Account request created successfully"),
     with_dynamodb
       (<[table_name := <[request_id r := to_dict r]> tbl]> (dynamodb st)) st).
Proof.
  intros Htbl _.
  unfold create_account_request, try_except, bind.
  rewrite (_get_table_exists st tbl Htbl).
  unfold put_item. by rewrite Htbl, to_dict_key.
Qed.

Lemma create_account_request_replaces_witness :
  create_account_request colliding_request sample_aws =
    (Return (Created "migrate-2025-01-10-abc12345"
               "Account request created successfully"),
     with_dynamodb
       (<[table_name :=
            <["migrate-2025-01-10-abc12345" := to_dict colliding_request]>
              ledger_table]> (dynamodb sample_aws)) sample_aws).
Proof.
  apply (create_account_request_replaces sample_aws ledger_table
           pending_request colliding_request); reflexivity.
Defined.

(** C1 as stated fails: with [pending_request] stored, the put of another
    request under the same id succeeds, and the record stored afterwards is
    the new one, which differs from the one that was there. *)
Lemma create_account_request_overwrites :
  ledger_table !! "migrate-2025-01-10-abc12345" = Some pending_request /\
  success_of (fst (create_account_request colliding_request sample_aws)) = true /\
  (dynamodb (snd (create_account_request colliding_request sample_aws))
     !! table_name) ≫= (.!! "migrate-2025-01-10-abc12345")
    = Some (to_dict colliding_request) /\
  to_dict colliding_request <> pending_request.
Proof.
  repeat split; try (vm_compute; reflexivity).
  intros Heq. apply (f_equal (.!! "client_id")) in Heq.
  vm_compute in Heq. discriminate.
Qed.

(** *** [get_aft_status] *)

(** C2, as the code has it: for every request stored in the ledger, the
    pipeline status of the view is the rendering of the record's own
    [status] field (["unknown"] when the record has none), whatever the
    Pipeline Service holds; no execution id is reported, and the ledger and
    the rest of the account are left as they were. *)
Theorem get_aft_status_from_ledger (d : gmap string table)
    (pipelines : list Pipeline) (tbl : table) (request_id : string)
    (request : dict) :
  d !! table_name = Some tbl ->
  tbl !! request_id = Some request ->
  request <> ∅ ->
  get_aft_status request_id {| dynamodb := d; codepipeline := pipelines |} =
    (Return (Some
       {| aft_request_id := request_id;
          pipeline_status := str (default (VStr "unknown") (request !! "status"));
          pipeline_execution_id := None;
          aft_account_id := str <$> get_truthy request "account_id";
          last_updated := str <$> get_truthy request "updated_date" |}),
     {| dynamodb := d; codepipeline := pipelines |}).
Proof.
  intros Htbl Hreq Hne.
  unfold get_aft_status, try_except, bind.
  rewrite (get_account_request_exists
             {| dynamodb := d; codepipeline := pipelines |} tbl request_id Htbl).
  rewrite Hreq.
  by destruct (decide (request = ∅)).
Qed.

Lemma get_aft_status_from_ledger_witness :
  get_aft_status "migrate-2025-01-10-abc12345" sample_aws =
    (Return (Some
       {| aft_request_id := "migrate-2025-01-10-abc12345";
          pipeline_status := "pending";
          pipeline_execution_id := None;
          aft_account_id := None;
          last_updated := None |}),
     sample_aws).
Proof.
  apply (get_aft_status_from_ledger (dynamodb sample_aws)
           (codepipeline sample_aws) ledger_table
           "migrate-2025-01-10-abc12345" pending_request).
  - reflexivity.
  - reflexivity.
  - intros Heq. apply (f_equal (.!! "status")) in Heq.
    vm_compute in Heq. discriminate.
Defined.

(** C2 as stated fails: the ledger holds the request as ["pending"], the
    Pipeline Service reports the latest execution of the AFT pipeline as
    ["InProgress"], and the view gives the pipeline status ["pending"]. *)
Lemma get_aft_status_ignores_pipeline :
  ledger_table !! "migrate-2025-01-10-abc12345" ≫= (.!! "status")
    = Some (VStr "pending") /\
  fst (list_aft_pipelines sample_aws) =
    Return [("aft-account-provisioning",
             [ {| pipelineExecutionId := "exec-0001";
                  execution_status := "InProgress" |} ])] /\
  (exists view,
     fst (get_aft_status "migrate-2025-01-10-abc12345" sample_aws)
       = Return (Some view) /\
     pipeline_status view = "pending" /\
     pipeline_status view <> "InProgress").
Proof.
  split; [vm_compute; reflexivity|].
  split; [vm_compute; reflexivity|].
  eexists. split; [vm_compute; reflexivity|].
  split; [reflexivity|discriminate].
Qed.

(** *** [update_account_request] *)

Section Update.

Variable refused_name : string -> bool.

Lemma foldl_add_assignment l : forall e vs ns,
  foldl add_assignment (e, vs, ns) l =
    (e ++ (assignment_of <$> l), values_of vs l, names_of ns l).
Proof.
  induction l as [|[k v] l IH]; intros e vs ns; simpl.
  - by rewrite app_nil_r.
  - unfold assignment_of at 1. simpl.
    destruct (decide (k = "status")) as [->|Hk]; simpl;
      rewrite IH, <- app_assoc; reflexivity.
Qed.

Lemma values_of_other l : forall vs r,
  (forall kv, kv ∈ l -> ":" +:+ kv.1 <> r) ->
  values_of vs l !! r = vs !! r.
Proof.
  induction l as [|[k v] l IH]; intros vs r Hr; simpl; [done|].
  unfold values_of in *. simpl. rewrite IH.
  - apply lookup_insert_ne. apply (Hr (k, v)). left.
  - intros kv Hkv. apply Hr. by right.
Qed.

Lemma values_of_lookup l : forall vs k v,
  NoDup l.*1 -> (k, v) ∈ l -> values_of vs l !! (":" +:+ k) = Some v.
Proof.
  induction l as [|[k0 v0] l IH]; intros vs k v Hnd Hin.
  - by apply elem_of_nil in Hin.
  - apply NoDup_cons in Hnd as [Hk0 Hnd].
    apply elem_of_cons in Hin as [Heq|Hin].
    + injection Heq as -> ->. unfold values_of. simpl.
      fold (values_of (<[":" +:+ k0 := v0]> vs) l).
      rewrite values_of_other; [apply lookup_insert_eq|].
      intros [k' v'] Hkv Heq. simpl in Heq.
      apply String.app_inj in Heq. subst k'.
      apply Hk0. apply list_elem_of_fmap. by exists (k0, v').
    + unfold values_of. simpl. by apply IH.
Qed.

Lemma names_of_status l : forall ns,
  ns !! "#status" = Some "status" ->
  names_of ns l !! "#status" = Some "status".
Proof.
  induction l as [|[k v] l IH]; intros ns Hns; [done|].
  unfold names_of. simpl. apply IH.
  destruct (decide (k = "status")); [apply lookup_insert_eq|done].
Qed.

Lemma names_of_has_status l : forall ns v,
  ("status", v) ∈ l -> names_of ns l !! "#status" = Some "status".
Proof.
  induction l as [|[k0 v0] l IH]; intros ns v Hin.
  - by apply elem_of_nil in Hin.
  - apply elem_of_cons in Hin as [Heq|Hin].
    + injection Heq as <- <-. unfold names_of. simpl.
      apply names_of_status, lookup_insert_eq.
    + unfold names_of. simpl. by apply (IH _ v).
Qed.

Lemma apply_set_assignments kw l : forall item,
  (forall k v, (k, v) ∈ l ->
     ExpressionAttributeValues kw !! (":" +:+ k) = Some v /\
     k <> "request_id" /\
     (k = "status" ->
        ExpressionAttributeNames kw ≫= (.!! "#status") = Some "status") /\
     (k <> "status" -> refused_name k = false)) ->
  apply_set refused_name kw item (assignment_of <$> l) =
    Return (assign_all item l).
Proof.
  induction l as [|[k v] l IH]; intros item Hok; [done|].
  destruct (Hok k v) as (Hv & Hkey & Hst & Hrf); [left|].
  simpl. unfold apply_assignment, assignment_of. simpl.
  destruct (decide (k = "status")) as [->|Hk]; simpl.
  - rewrite (Hst eq_refl).
    destruct (decide ("status" = "request_id")) as [Habs|_]; [done|].
    change ":status" with (":" +:+ "status"). rewrite Hv.
    apply IH. intros k' v' Hin. apply Hok. by right.
  - rewrite (Hrf Hk).
    destruct (decide (k = "request_id")) as [Habs|_]; [done|].
    rewrite Hv. apply IH. intros k' v' Hin. apply Hok. by right.
Qed.

Lemma assign_all_union l : forall item,
  NoDup l.*1 -> assign_all item l = list_to_map l ∪ item.
Proof.
  induction l as [|[k v] l IH]; intros item Hnd; simpl.
  - by rewrite (left_id_L ∅ (∪)).
  - apply NoDup_cons in Hnd as [Hk Hnd].
    unfold assign_all in *. simpl. rewrite (IH _ Hnd).
    rewrite <- insert_union_l. symmetry. apply insert_union_r.
    by apply not_elem_of_list_to_map_1.
Qed.

Lemma update_account_request_accepted (now request_id : string)
    (updates : dict) (st : aws) (tbl : table) :
  dynamodb st !! table_name = Some tbl ->
  updates !! "request_id" = None ->
  refused_name "updated_date" = false ->
  (forall k, is_Some (updates !! k) -> k <> "status" -> refused_name k = false) ->
  update_account_request refused_name now request_id updates st =
    (Return (Updated (updated_record now request_id updates tbl)),
     with_dynamodb
       (<[table_name :=
            <[request_id := updated_record now request_id updates tbl]> tbl]>
          (dynamodb st)) st).
Proof.
  intros Htbl Hkey Hstamp Hnames.
  unfold update_account_request, try_except, bind.
  rewrite (_get_table_exists st tbl Htbl).
  set (stamped := <["updated_date" := VStr now]> updates).
  rewrite foldl_add_assignment. simpl.
  set (l := map_to_list stamped).
  set (kw := {| Key := request_id; UpdateExpression := assignment_of <$> l |}).
  unfold update_item. rewrite Htbl. simpl. fold kw.
  assert (Hnd : NoDup l.*1) by apply NoDup_fst_map_to_list.
  rewrite (apply_set_assignments kw l).
  - rewrite (assign_all_union l _ Hnd). unfold l.
    rewrite list_to_map_to_list. reflexivity.
  - intros k v Hin. simpl. repeat split.
    + by apply values_of_lookup.
    + intros ->. apply elem_of_map_to_list in Hin. unfold stamped in Hin.
      rewrite lookup_insert_ne in Hin by done. congruence.
    + intros ->.
      pose proof (names_of_has_status l ∅ v Hin) as Hst.
      destruct (decide (names_of ∅ l = ∅)) as [Hempty|_]; simpl.
      * rewrite Hempty in Hst. by rewrite lookup_empty in Hst.
      * done.
    + intros Hk. apply elem_of_map_to_list in Hin. unfold stamped in Hin.
      destruct (decide (k = "updated_date")) as [->|Hne]; [done|].
      rewrite lookup_insert_ne in Hin by done. apply Hnames; [by eexists|done].
Qed.





End Update.



End LedgerFacts.

(** ** Properties of the OU resolver *)

Module ResolverFacts.
Import Migrate Hierarchy Samples.

Lemma find_app {A} (p : A -> bool) (l1 l2 : list A) :
  List.find p (l1 ++ l2) =
    match List.find p l1 with
    | Some x => Some x
    | None => List.find p l2
    end.
Proof.
  induction l1 as [|a l1 IH]; simpl; [done|].
  by destruct (p a).
Qed.

Lemma exhaust_listed {A} (ps : pages A) (l : list A) :
  exhaust ps = Return l -> listed ps = l.
Proof.
  revert l. induction ps as [|page rest IH|e]; intros l Hl; simpl in *.
  - by injection Hl.
  - destruct (exhaust rest) as [l'|e]; [|done].
    injection Hl as <-. by rewrite (IH l').
  - done.
Qed.

Section Find.

Variable same_name : string -> string -> bool.
Variable orgs : organizations.
Variable ou_name : string.

(** *** Termination on hierarchies of bounded depth *)

Lemma for_ou_in_page_done descend page :
  (forall x, x ∈ page -> exists r, descend (OU_Id x) = Done r) ->
  for_ou_in_page same_name descend ou_name page = None \/
  exists r, for_ou_in_page same_name descend ou_name page = Some (Done r).
Proof.
  induction page as [|x page IH]; intros Hd; simpl; [by left|].
  destruct (same_name (OU_Name x) ou_name); [right; eauto|].
  destruct (Hd x) as [r Hr]; [left|]. rewrite Hr.
  destruct r as [child|e]; [|right; eauto].
  destruct (truthy_str child); [right; eauto|].
  apply IH. intros x' Hin. apply Hd. by right.
Qed.

Lemma for_page_in_pages_done descend ps :
  (forall x, x ∈ listed ps -> exists r, descend (OU_Id x) = Done r) ->
  exists r, for_page_in_pages same_name descend ou_name ps = Done r.
Proof.
  induction ps as [|page rest IH|e]; intros Hd; simpl; eauto.
  destruct (for_ou_in_page_done descend page) as [Hnone|[r Hr]].
  - intros x' Hin. apply Hd. simpl. apply elem_of_app. by left.
  - rewrite Hnone. apply IH. intros x' Hin. apply Hd. simpl.
    apply elem_of_app. by right.
  - rewrite Hr. eauto.
Qed.

Lemma find_ou_by_name_with_done d : forall fuel parent_id,
  depth_within orgs d parent_id = true ->
  d <= fuel ->
  exists r, find_ou_by_name_with same_name orgs fuel parent_id ou_name = Done r.
Proof.
  induction d as [|d IH]; intros fuel parent_id Hd Hfuel; [done|].
  destruct fuel as [|fuel]; [lia|]. simpl in *.
  apply for_page_in_pages_done. intros x' Hin.
  apply IH; [|lia].
  rewrite forallb_forall in Hd. apply Hd. by apply list_elem_of_In.
Qed.

(** *** The first match in pre-order *)

Section Loops.

Variable descend : string -> run (option string).
Variable below : OU -> list OU.

Lemma for_ou_in_page_first page :
  (forall x, x ∈ page -> answers same_name ou_name descend below x) ->
  for_ou_in_page same_name descend ou_name page =
    match List.find (fun y => same_name (OU_Name y) ou_name)
            (flat_map (fun x => x :: below x) page) with
    | Some y => Some (Done (Return (Some (OU_Id y))))
    | None => None
    end.
Proof.
  induction page as [|x page IH]; intros Hans; simpl; [done|].
  destruct (same_name (OU_Name x) ou_name) eqn:Hx; [done|].
  destruct (Hans x) as [Hdesc Hid]; [left|].
  rewrite Hdesc, find_app.
  destruct (List.find _ (below x)) as [y|] eqn:Hy; simpl.
  - specialize (Hid y eq_refl).
    destruct (String.eqb_spec (OU_Id y) ""); [done|reflexivity].
  - apply IH. intros x' Hin. apply Hans. by right.
Qed.

Lemma for_page_in_pages_first ps ous :
  exhaust ps = Return ous ->
  (forall x, x ∈ ous -> answers same_name ou_name descend below x) ->
  for_page_in_pages same_name descend ou_name ps =
    Done (Return
      (OU_Id <$> List.find (fun y => same_name (OU_Name y) ou_name)
                   (flat_map (fun x => x :: below x) ous))).
Proof.
  revert ous. induction ps as [|page rest IH|e]; intros ous Hex Hans;
    simpl in *.
  - by injection Hex as <-.
  - destruct (exhaust rest) as [l|e]; [|done]. injection Hex as <-.
    rewrite for_ou_in_page_first.
    + rewrite flat_map_app, find_app.
      destruct (List.find _ (flat_map _ page)); [done|].
      apply IH; [done|]. intros x Hin. apply Hans, elem_of_app. by right.
    + intros x Hin. apply Hans, elem_of_app. by left.
  - done.
Qed.

End Loops.

Lemma preorder_ids d : forall parent_id y,
  listings_sound orgs d parent_id = true ->
  y ∈ preorder orgs d parent_id -> OU_Id y <> "".
Proof.
  induction d as [|d IH]; intros parent_id y Hs Hin; simpl in *.
  - by apply elem_of_nil in Hin.
  - unfold children in Hin.
    destruct (exhaust _) as [ous|e] eqn:Hex; [|done].
    rewrite (exhaust_listed _ _ Hex) in Hin.
    apply list_elem_of_In, in_flat_map in Hin as (x & Hx & Hy).
    rewrite forallb_forall in Hs. specialize (Hs x Hx).
    apply andb_true_iff in Hs as [Hid Hsx].
    destruct Hy as [<-|Hy].
    + by destruct (String.eqb_spec (OU_Id x) "").
    + apply (IH (OU_Id x)); [done|by apply list_elem_of_In].
Qed.

Lemma find_ou_by_name_with_preorder d : forall fuel parent_id,
  depth_within orgs d parent_id = true ->
  listings_sound orgs d parent_id = true ->
  d <= fuel ->
  find_ou_by_name_with same_name orgs fuel parent_id ou_name =
    Done (Return (first_in_preorder same_name orgs d parent_id ou_name)).
Proof.
  unfold first_in_preorder.
  induction d as [|d IH]; intros fuel parent_id Hd Hs Hfuel; [done|].
  destruct fuel as [|fuel]; [lia|]. simpl in *. unfold children in *.
  destruct (exhaust _) as [ous|e] eqn:Hex; [|done].
  rewrite (exhaust_listed _ _ Hex) in *.
  apply (for_page_in_pages_first _ (fun x => preorder orgs d (OU_Id x)));
    [done|].
  intros x Hin. apply list_elem_of_In in Hin.
  rewrite forallb_forall in Hd, Hs.
  specialize (Hd x Hin). specialize (Hs x Hin).
  apply andb_true_iff in Hs as [_ Hs].
  split.
  - apply IH; [done|done|lia].
  - intros y Hy. apply (preorder_ids d (OU_Id x)); [done|].
    apply list_elem_of_In. by apply find_some in Hy as [Hy _].
Qed.

End Find.

(** *** Letter case *)

Lemma for_ou_in_page_ext same_name d1 d2 n1 n2 page :
  (forall a, same_name a n1 = same_name a n2) ->
  (forall id, d1 id = d2 id) ->
  for_ou_in_page same_name d1 n1 page = for_ou_in_page same_name d2 n2 page.
Proof.
  intros Hn Hd. induction page as [|x page IH]; simpl; [done|].
  by rewrite Hn, Hd, IH.
Qed.

Lemma for_page_in_pages_ext same_name d1 d2 n1 n2 ps :
  (forall a, same_name a n1 = same_name a n2) ->
  (forall id, d1 id = d2 id) ->
  for_page_in_pages same_name d1 n1 ps = for_page_in_pages same_name d2 n2 ps.
Proof.
  intros Hn Hd. induction ps as [|page rest IH|e]; simpl; [done| |done].
  by rewrite (for_ou_in_page_ext same_name d1 d2 n1 n2 page Hn Hd), IH.
Qed.

(** In [simple], two names that differ in letter case only resolve alike. *)
Lemma simple_find_ou_by_name_case_insensitive orgs fuel : forall parent_id n1 n2,
  lower n1 = lower n2 ->
  Simple.find_ou_by_name orgs fuel parent_id n1 =
  Simple.find_ou_by_name orgs fuel parent_id n2.
Proof.
  unfold Simple.find_ou_by_name.
  induction fuel as [|fuel IH]; intros parent_id n1 n2 Hn; simpl; [done|].
  apply for_page_in_pages_ext.
  - intros a. by rewrite Hn.
  - intros id. by apply IH.
Qed.

(** C3 fails on [existing_ou]: its [find_ou_by_name] compares with [==].
    On the hierarchy [root -> {A -> Sandbox, B -> Sandbox}] the name
    ["Sandbox"] resolves to [A]'s child and the name ["sandbox"], which
    differs from it in letter case only, resolves to nothing, so that the
    command reports that the target OU was not found; the
    [find_ou_by_name] of [simple] resolves both names to [A]'s child. *)
Theorem existing_ou_find_ou_by_name_case_sensitive :
  lower "sandbox" = lower "Sandbox" /\
  ExistingOu.find_ou_by_name (org_with "ou-b" two_sandboxes) 3 "r-root" "Sandbox"
    = Done (Return (Some "ou-a-sandbox")) /\
  ExistingOu.find_ou_by_name (org_with "ou-b" two_sandboxes) 3 "r-root" "sandbox"
    = Done (Return None) /\
  ExistingOu.existing_ou always_valid 3 (org_with "ou-b" two_sandboxes)
      "111122223333" "sandbox" false true
    = (Done (Return TargetOUNotFound), []) /\
  Simple.find_ou_by_name (org_with "ou-b" two_sandboxes) 3 "r-root" "Sandbox"
    = Done (Return (Some "ou-a-sandbox")) /\
  Simple.find_ou_by_name (org_with "ou-b" two_sandboxes) 3 "r-root" "sandbox"
    = Done (Return (Some "ou-a-sandbox")).
Proof. repeat split; vm_compute; reflexivity. Qed.

(** C4, as the code has it: the traversal is depth-first pre-order. On a
    hierarchy of bounded depth whose listings end without an error and
    whose ids are not empty, both definitions of [find_ou_by_name] answer
    the first OU of that name in the order in which each OU is followed by
    all that is below it and then by its next sibling, in the order of the
    pages; on [root -> {A, B}] with a ["Sandbox"] below each, that is [A]'s
    child. *)
Theorem find_ou_by_name_first_in_preorder (orgs : organizations)
    (d fuel : nat) (parent_id ou_name : string) :
  depth_within orgs d parent_id = true ->
  listings_sound orgs d parent_id = true ->
  d <= fuel ->
  ExistingOu.find_ou_by_name orgs fuel parent_id ou_name =
    Done (Return (first_in_preorder String.eqb orgs d parent_id ou_name)) /\
  Simple.find_ou_by_name orgs fuel parent_id ou_name =
    Done (Return
      (first_in_preorder (fun a b => String.eqb (lower a) (lower b))
         orgs d parent_id ou_name)).
Proof.
  intros Hd Hs Hfuel. split; by apply find_ou_by_name_with_preorder.
Qed.

Lemma find_ou_by_name_first_in_preorder_witness :
  ExistingOu.find_ou_by_name (org_with "ou-b" two_sandboxes) 3 "r-root" "Sandbox"
    = Done (Return (Some "ou-a-sandbox")) /\
  Simple.find_ou_by_name (org_with "ou-b" two_sandboxes) 3 "r-root" "Sandbox"
    = Done (Return (Some "ou-a-sandbox")).
Proof.
  apply (find_ou_by_name_first_in_preorder (org_with "ou-b" two_sandboxes)
           3 3 "r-root" "Sandbox"); [reflexivity|reflexivity|lia].
Defined.

(** C4 as stated fails. On [root -> {A, Sandbox}] with another ["Sandbox"]
    below [A], the code answers the one below [A], having descended into
    [A] before it compared [A]'s sibling, where comparing all the siblings
    first answers the sibling. And where the second page of the root's
    children cannot be fetched, the code has already descended into the
    child of the first page and answers from below it. *)
Lemma find_ou_by_name_descends_before_siblings :
  (Simple.find_ou_by_name (org_with "ou-b" sandbox_at_two_depths) 3
     "r-root" "Sandbox" = Done (Return (Some "ou-deep-sandbox")) /\
   ExistingOu.find_ou_by_name (org_with "ou-b" sandbox_at_two_depths) 3
     "r-root" "Sandbox" = Done (Return (Some "ou-deep-sandbox")) /\
   resolve_siblings_first String.eqb (org_with "ou-b" sandbox_at_two_depths) 3
     "r-root" "Sandbox" = Done (Return (Some "ou-top-sandbox"))) /\
  (exhaust (second_page_fails "r-root")
     = Raise (ClientError "TooManyRequestsException" "throttled") /\
   Simple.find_ou_by_name (org_with "ou-b" second_page_fails) 3
     "r-root" "Sandbox" = Done (Return (Some "ou-deep-sandbox")) /\
   ExistingOu.find_ou_by_name (org_with "ou-b" second_page_fails) 3
     "r-root" "Sandbox" = Done (Return (Some "ou-deep-sandbox")) /\
   resolve_siblings_first String.eqb (org_with "ou-b" second_page_fails) 3
     "r-root" "Sandbox"
     = Done (Raise (ClientError "TooManyRequestsException" "throttled"))).
Proof. repeat split; vm_compute; reflexivity. Qed.

(** *** The search always completes *)



End ResolverFacts.

(** ** Properties of the move commands *)

Module CommandFacts.
Import Migrate Hierarchy Samples.

Lemma truthy_str_Some (o : option string) :
  truthy_str o = true -> exists s, o = Some s /\ s <> "".
Proof.
  destruct o as [s|]; [|done]. simpl. intros H. exists s. split; [done|].
  intros ->. done.
Qed.

Lemma truthy_str_nonempty (s : string) : s <> "" -> truthy_str (Some s) = true.
Proof. intros Hs. simpl. by destruct (String.eqb_spec s ""). Qed.

Lemma no_element_nil {A} (l : list A) : (forall x, x ∈ l -> False) -> l = [].
Proof. destruct l as [|a l]; [done|]. intros H. destruct (H a). left. Qed.

(** *** The end of both commands *)

Lemma plan_and_move_moves orgs account_id current_parent target_ou_id
    dry_run confirm mv :
  mv ∈ snd (plan_and_move orgs account_id current_parent target_ou_id
              dry_run confirm) ->
  dry_run = false /\ confirm = true /\
  (exists p, current_parent = Some p /\ SourceParentId mv = Parent_Id p) /\
  AccountId mv = account_id /\ DestinationParentId mv = target_ou_id /\
  snd (plan_and_move orgs account_id current_parent target_ou_id
         dry_run confirm) = [mv].
Proof.
  unfold plan_and_move.
  destruct dry_run.
  { destruct (parent_id_of current_parent); simpl; intros H;
      by apply elem_of_nil in H. }
  destruct confirm; simpl; [|intros H; by apply elem_of_nil in H].
  destruct current_parent as [p|]; simpl;
    [|intros H; by apply elem_of_nil in H].
  destruct (move_account orgs account_id (Parent_Id p) target_ou_id); simpl;
    intros H; apply list_elem_of_singleton in H; subst mv; simpl; eauto 10.
Qed.

Lemma plan_and_move_planned orgs account_id p target_ou_id dry_run confirm :
  (let '(r, moves) :=
     plan_and_move orgs account_id (Some p) target_ou_id dry_run confirm in
   (Done (Return r), moves)) =
  after_planning orgs
    {| AccountId := account_id; SourceParentId := Parent_Id p;
       DestinationParentId := target_ou_id |} dry_run confirm.
Proof.
  unfold plan_and_move, after_planning. simpl.
  destruct dry_run; [done|]. destruct confirm; simpl; [|done].
  by destruct (move_account orgs account_id (Parent_Id p) target_ou_id).
Qed.

Lemma after_planning_moves orgs mv dry_run confirm :
  length (after_planning orgs mv dry_run confirm).2 =
    if dry_run then 0 else if confirm then 1 else 0.
Proof.
  unfold after_planning. destruct dry_run; [done|].
  destruct confirm; [|done].
  by destruct (move_account orgs _ _ _).
Qed.

(** *** [existing_ou] *)

Section ExistingOu.

Variable validate_ou_name : string -> bool.

Lemma existing_ou_moves fuel orgs account_id target dry_run confirm mv :
  mv ∈ snd (ExistingOu.existing_ou validate_ou_name fuel orgs account_id
              target dry_run confirm) ->
  dry_run = false /\ confirm = true /\
  (exists account, describe_account orgs account_id = Return account) /\
  planned ExistingOu.find_ou_by_name orgs fuel account_id target mv /\
  snd (ExistingOu.existing_ou validate_ou_name fuel orgs account_id
         target dry_run confirm) = [mv].
Proof.
  unfold ExistingOu.existing_ou, planned.
  destruct (is_account_id account_id); simpl;
    [|intros H; by apply elem_of_nil in H].
  destruct (validate_ou_name target); simpl;
    [|intros H; by apply elem_of_nil in H].
  destruct (describe_account orgs account_id) as [account|e]; simpl;
    [|intros H; by apply elem_of_nil in H].
  destruct (list_parents orgs account_id) as [parents|e]; simpl;
    [|intros H; by apply elem_of_nil in H].
  destruct (first_root_id orgs) as [root_id|e]; simpl;
    [|intros H; by apply elem_of_nil in H].
  destruct (ExistingOu.find_ou_by_name orgs fuel root_id target)
    as [[target_ou_id|e]|] eqn:Hfind; simpl;
    try (intros H; by apply elem_of_nil in H).
  destruct (truthy_str target_ou_id) eqn:Htruthy; simpl;
    [|intros H; by apply elem_of_nil in H].
  apply truthy_str_Some in Htruthy as (t & -> & Ht). simpl.
  destruct (plan_and_move orgs account_id (head parents) t dry_run confirm)
    as [r moves] eqn:Hplan. simpl. intros Hin.
  pose proof (plan_and_move_moves orgs account_id (head parents) t
                dry_run confirm mv) as Hmoves.
  rewrite Hplan in Hmoves. simpl in Hmoves.
  destruct (Hmoves Hin) as (Hdry & Hconf & (p & Hp & Hsrc) & Hacc & Hdst & Hall).
  destruct parents as [|p' ps]; [done|]. injection Hp as ->.
  subst t. repeat split; eauto.
Qed.

Lemma existing_ou_planned fuel orgs account_id target dry_run confirm
    account p ps root_id t :
  is_account_id account_id = true ->
  validate_ou_name target = true ->
  describe_account orgs account_id = Return account ->
  list_parents orgs account_id = Return (p :: ps) ->
  first_root_id orgs = Return root_id ->
  ExistingOu.find_ou_by_name orgs fuel root_id target = Done (Return (Some t)) ->
  t <> "" ->
  ExistingOu.existing_ou validate_ou_name fuel orgs account_id target
      dry_run confirm =
    after_planning orgs
      {| AccountId := account_id; SourceParentId := Parent_Id p;
         DestinationParentId := t |} dry_run confirm.
Proof.
  intros Hid Hvalid Hacc Hparents Hroot Hfind Ht.
  unfold ExistingOu.existing_ou.
  rewrite Hid, Hvalid, Hacc, Hparents, Hroot, Hfind. simpl.
  destruct (String.eqb_spec t ""); [done|]. simpl.
  apply plan_and_move_planned.
Qed.

Lemma existing_ou_unresolved fuel orgs account_id target dry_run confirm
    account ps root_id o :
  is_account_id account_id = true ->
  validate_ou_name target = true ->
  describe_account orgs account_id = Return account ->
  list_parents orgs account_id = Return ps ->
  first_root_id orgs = Return root_id ->
  ExistingOu.find_ou_by_name orgs fuel root_id target = Done (Return o) ->
  truthy_str o = false ->
  ExistingOu.existing_ou validate_ou_name fuel orgs account_id target
      dry_run confirm = (Done (Return TargetOUNotFound), []).
Proof.
  intros Hid Hvalid Hacc Hparents Hroot Hfind Ho.
  unfold ExistingOu.existing_ou.
  by rewrite Hid, Hvalid, Hacc, Hparents, Hroot, Hfind, Ho.
Qed.

Lemma existing_ou_done fuel orgs account_id target dry_run confirm :
  (forall root_id, first_root_id orgs = Return root_id ->
     exists r, ExistingOu.find_ou_by_name orgs fuel root_id target = Done r) ->
  exists r, (ExistingOu.existing_ou validate_ou_name fuel orgs account_id
               target dry_run confirm).1 = Done (Return r).
Proof.
  intros Hfind. unfold ExistingOu.existing_ou.
  destruct (is_account_id account_id); simpl; [|eauto].
  destruct (validate_ou_name target); simpl; [|eauto].
  destruct (describe_account orgs account_id) as [account|e]; simpl; [|eauto].
  destruct (list_parents orgs account_id) as [parents|e]; simpl; [|eauto].
  destruct (first_root_id orgs) as [root_id|e]; simpl; [|eauto].
  destruct (Hfind root_id eq_refl) as [r ->].
  destruct r as [target_ou_id|e]; [|eauto].
  destruct (truthy_str target_ou_id); simpl; [|eauto].
  destruct (plan_and_move _ _ _ _ _ _). simpl. eauto.
Qed.

End ExistingOu.

(** *** [simple] *)

Lemma simple_moves fuel orgs source target dry_run confirm mv :
  mv ∈ snd (Simple.simple fuel orgs source target dry_run confirm) ->
  dry_run = false /\ confirm = true /\
  (exists account_name,
     Simple.find_source_account orgs source = inr (AccountId mv, account_name)) /\
  planned Simple.find_ou_by_name orgs fuel (AccountId mv) target mv /\
  snd (Simple.simple fuel orgs source target dry_run confirm) = [mv].
Proof.
  unfold Simple.simple, planned.
  destruct (Simple.find_source_account orgs source)
    as [r|[account_id account_name]]; simpl;
    [intros H; by apply elem_of_nil in H|].
  destruct (first_root_id orgs) as [root_id|e]; simpl;
    [|intros H; by apply elem_of_nil in H].
  destruct (Simple.find_ou_by_name orgs fuel root_id target)
    as [[target_ou_id|e]|] eqn:Hfind; simpl;
    try (intros H; by apply elem_of_nil in H).
  destruct (truthy_str target_ou_id) eqn:Htruthy; simpl;
    [|intros H; by apply elem_of_nil in H].
  apply truthy_str_Some in Htruthy as (t & -> & Ht). simpl.
  destruct (list_parents orgs account_id) as [parents|e] eqn:Hparents; simpl;
    [|intros H; by apply elem_of_nil in H].
  destruct (plan_and_move orgs account_id (head parents) t dry_run confirm)
    as [r moves] eqn:Hplan. simpl. intros Hin.
  pose proof (plan_and_move_moves orgs account_id (head parents) t
                dry_run confirm mv) as Hmoves.
  rewrite Hplan in Hmoves. simpl in Hmoves.
  destruct (Hmoves Hin) as (Hdry & Hconf & (p & Hp & Hsrc) & Hacc & Hdst & Hall).
  destruct parents as [|p' ps]; [done|]. injection Hp as ->.
  subst t. rewrite Hacc. rewrite Hparents. repeat split; eauto.
Qed.

Lemma simple_planned fuel orgs source target dry_run confirm
    account_id account_name p ps root_id t :
  Simple.find_source_account orgs source = inr (account_id, account_name) ->
  first_root_id orgs = Return root_id ->
  Simple.find_ou_by_name orgs fuel root_id target = Done (Return (Some t)) ->
  t <> "" ->
  list_parents orgs account_id = Return (p :: ps) ->
  Simple.simple fuel orgs source target dry_run confirm =
    after_planning orgs
      {| AccountId := account_id; SourceParentId := Parent_Id p;
         DestinationParentId := t |} dry_run confirm.
Proof.
  intros Hsrc Hroot Hfind Ht Hparents.
  unfold Simple.simple.
  rewrite Hsrc, Hroot, Hfind. simpl.
  destruct (String.eqb_spec t ""); [done|]. simpl.
  rewrite Hparents. apply plan_and_move_planned.
Qed.

Lemma simple_unresolved fuel orgs source target dry_run confirm
    account_id account_name root_id o :
  Simple.find_source_account orgs source = inr (account_id, account_name) ->
  first_root_id orgs = Return root_id ->
  Simple.find_ou_by_name orgs fuel root_id target = Done (Return o) ->
  truthy_str o = false ->
  Simple.simple fuel orgs source target dry_run confirm
    = (Done (Return TargetOUNotFound), []).
Proof.
  intros Hsrc Hroot Hfind Ho. unfold Simple.simple.
  by rewrite Hsrc, Hroot, Hfind, Ho.
Qed.

Lemma simple_done fuel orgs source target dry_run confirm :
  (forall root_id, first_root_id orgs = Return root_id ->
     exists r, Simple.find_ou_by_name orgs fuel root_id target = Done r) ->
  exists r, (Simple.simple fuel orgs source target dry_run confirm).1
              = Done (Return r).
Proof.
  intros Hfind. unfold Simple.simple.
  destruct (Simple.find_source_account orgs source)
    as [r|[account_id account_name]]; simpl; [eauto|].
  destruct (first_root_id orgs) as [root_id|e]; simpl; [|eauto].
  destruct (Hfind root_id eq_refl) as [r ->].
  destruct r as [target_ou_id|e]; [|eauto].
  destruct (truthy_str target_ou_id); simpl; [|eauto].
  destruct (list_parents orgs account_id) as [parents|e]; simpl; [|eauto].
  destruct (plan_and_move _ _ _ _ _ _). simpl. eauto.
Qed.

(** *** The move is sent only after planning *)

(** C7: in both commands a [move_account] request is sent only when the
    run is live and confirmed, the account was resolved, its first listed
    parent was found and the search answered the target OU, and then it is
    the only request sent, made of exactly these. A dry run sends none; a
    target that resolves to nothing sends none, and the command, once the
    steps before the search passed, ends reporting that the target OU was
    not found; on a hierarchy of bounded depth both commands end. *)
Theorem move_account_only_after_planning (validate_ou_name : string -> bool)
    (fuel : nat) (orgs : organizations) (account_id source target : string)
    (dry_run confirm : bool) :
  let existing :=
    ExistingOu.existing_ou validate_ou_name fuel orgs account_id target
      dry_run confirm in
  let simple := Simple.simple fuel orgs source target dry_run confirm in
  (forall mv, mv ∈ existing.2 ->
     dry_run = false /\ confirm = true /\
     (exists account, describe_account orgs account_id = Return account) /\
     planned ExistingOu.find_ou_by_name orgs fuel account_id target mv /\
     existing.2 = [mv]) /\
  (forall mv, mv ∈ simple.2 ->
     dry_run = false /\ confirm = true /\
     (exists account_name,
        Simple.find_source_account orgs source
          = inr (AccountId mv, account_name)) /\
     planned Simple.find_ou_by_name orgs fuel (AccountId mv) target mv /\
     simple.2 = [mv]) /\
  (dry_run = true -> existing.2 = [] /\ simple.2 = []) /\
  (forall root_id o,
     first_root_id orgs = Return root_id -> truthy_str o = false ->
     (ExistingOu.find_ou_by_name orgs fuel root_id target = Done (Return o) ->
        existing.2 = [] /\
        (forall account ps,
           is_account_id account_id = true ->
           validate_ou_name target = true ->
           describe_account orgs account_id = Return account ->
           list_parents orgs account_id = Return ps ->
           existing.1 = Done (Return TargetOUNotFound))) /\
     (Simple.find_ou_by_name orgs fuel root_id target = Done (Return o) ->
        simple.2 = [] /\
        (forall found_id found_name,
           Simple.find_source_account orgs source = inr (found_id, found_name) ->
           simple.1 = Done (Return TargetOUNotFound)))) /\
  (forall d,
     (forall root_id, first_root_id orgs = Return root_id ->
        depth_within orgs d root_id = true) ->
     d <= fuel ->
     (exists r, existing.1 = Done (Return r)) /\
     (exists r, simple.1 = Done (Return r))).
Proof.
  intros existing simple.
  assert (Hexisting : forall mv, mv ∈ existing.2 ->
            dry_run = false /\ confirm = true /\
            (exists account, describe_account orgs account_id = Return account) /\
            planned ExistingOu.find_ou_by_name orgs fuel account_id target mv /\
            existing.2 = [mv])
    by (intros mv; apply existing_ou_moves).
  assert (Hsimple : forall mv, mv ∈ simple.2 ->
            dry_run = false /\ confirm = true /\
            (exists account_name,
               Simple.find_source_account orgs source
                 = inr (AccountId mv, account_name)) /\
            planned Simple.find_ou_by_name orgs fuel (AccountId mv) target mv /\
            simple.2 = [mv])
    by (intros mv; apply simple_moves).
  split; [exact Hexisting|]. split; [exact Hsimple|].
  split; [|split].
  - intros Hdry. split; apply no_element_nil; intros mv Hin.
    + apply Hexisting in Hin as (Hlive & _). congruence.
    + apply Hsimple in Hin as (Hlive & _). congruence.
  - intros root_id o Hroot Ho. split; intros Hfind; split.
    + apply no_element_nil. intros mv Hin.
      apply Hexisting in Hin
        as (_ & _ & _ & (_ & _ & (root' & Hroot' & Hfind') & Hdst) & _).
      rewrite Hroot in Hroot'. injection Hroot' as <-.
      rewrite Hfind in Hfind'. injection Hfind' as ->.
      apply truthy_str_nonempty in Hdst. congruence.
    + intros account ps Hid Hvalid Hacc Hparents. subst existing.
      by rewrite (existing_ou_unresolved validate_ou_name fuel orgs account_id
                    target dry_run confirm account ps root_id o).
    + apply no_element_nil. intros mv Hin.
      apply Hsimple in Hin
        as (_ & _ & _ & (_ & _ & (root' & Hroot' & Hfind') & Hdst) & _).
      rewrite Hroot in Hroot'. injection Hroot' as <-.
      rewrite Hfind in Hfind'. injection Hfind' as ->.
      apply truthy_str_nonempty in Hdst. congruence.
    + intros found_id found_name Hsrc. subst simple.
      by rewrite (simple_unresolved fuel orgs source target dry_run confirm
                    found_id found_name root_id o).
  - intros d Hdepth Hfuel. split.
    + apply existing_ou_done. intros root_id Hroot.
      apply (ResolverFacts.find_ou_by_name_with_done _ _ _ d); auto.
    + apply simple_done. intros root_id Hroot.
      apply (ResolverFacts.find_ou_by_name_with_done _ _ _ d); auto.
Qed.

Lemma move_account_only_after_planning_witness :
  planned ExistingOu.find_ou_by_name (org_with "ou-b" two_sandboxes) 3
    "111122223333" "Sandbox"
    {| AccountId := "111122223333"; SourceParentId := "ou-b";
       DestinationParentId := "ou-a-sandbox" |} /\
  (ExistingOu.existing_ou always_valid 3 (org_with "ou-b" two_sandboxes)
     "111122223333" "Sandbox" false true).2
    = [ {| AccountId := "111122223333"; SourceParentId := "ou-b";
           DestinationParentId := "ou-a-sandbox" |} ].
Proof.
  pose proof (proj1 (move_account_only_after_planning always_valid 3
                (org_with "ou-b" two_sandboxes) "111122223333" "acme-prod"
                "Sandbox" false true)
              {| AccountId := "111122223333"; SourceParentId := "ou-b";
                 DestinationParentId := "ou-a-sandbox" |}) as H.
  destruct H as (_ & _ & _ & Hplanned & Hmoves).
  - vm_compute. left.
  - split; [exact Hplanned|exact Hmoves].
Defined.

(** *** A move to the current parent *)

(** C6, as the code has it: the commands do not compare the current parent
    with the resolved target OU and have no outcome for their being the
    same. When they are the same, a dry run reports the plan and a declined
    confirmation cancels, both without a [move_account] request; a live,
    confirmed run sends exactly one, with the same source and destination,
    and reports what the service answers. *)
Theorem move_to_current_parent (validate_ou_name : string -> bool)
    (fuel : nat) (orgs : organizations)
    (account_id source account_name target : string)
    (dry_run confirm : bool) (account : Account) (p : Parent)
    (ps : list Parent) (root_id : string) :
  list_parents orgs account_id = Return (p :: ps) ->
  first_root_id orgs = Return root_id ->
  Parent_Id p <> "" ->
  let mv := {| AccountId := account_id; SourceParentId := Parent_Id p;
               DestinationParentId := Parent_Id p |} in
  (is_account_id account_id = true ->
   validate_ou_name target = true ->
   describe_account orgs account_id = Return account ->
   ExistingOu.find_ou_by_name orgs fuel root_id target
     = Done (Return (Some (Parent_Id p))) ->
   ExistingOu.existing_ou validate_ou_name fuel orgs account_id target
       dry_run confirm = after_planning orgs mv dry_run confirm) /\
  (Simple.find_source_account orgs source = inr (account_id, account_name) ->
   Simple.find_ou_by_name orgs fuel root_id target
     = Done (Return (Some (Parent_Id p))) ->
   Simple.simple fuel orgs source target dry_run confirm
     = after_planning orgs mv dry_run confirm) /\
  length (after_planning orgs mv dry_run confirm).2
    = (if dry_run then 0 else if confirm then 1 else 0).
Proof.
  intros Hparents Hroot Hp mv. repeat split.
  - intros Hid Hvalid Hacc Hfind.
    by apply (existing_ou_planned validate_ou_name fuel orgs account_id target
                dry_run confirm account p ps root_id).
  - intros Hsrc Hfind.
    by apply (simple_planned fuel orgs source target dry_run confirm
                account_id account_name p ps root_id).
  - apply after_planning_moves.
Qed.

Lemma move_to_current_parent_witness :
  ExistingOu.existing_ou always_valid 3 (org_with "ou-a-sandbox" two_sandboxes)
      "111122223333" "Sandbox" true false
    = (Done (Return (DryRun
         {| AccountId := "111122223333"; SourceParentId := "ou-a-sandbox";
            DestinationParentId := "ou-a-sandbox" |})), []).
Proof.
  refine (proj1 (move_to_current_parent always_valid 3
            (org_with "ou-a-sandbox" two_sandboxes) "111122223333"
            "acme-prod" "acme-prod" "Sandbox" true false acme_account
            {| Parent_Id := "ou-a-sandbox"; Parent_Type := "ORGANIZATIONAL_UNIT" |}
            [] "r-root" _ _ _) _ _ _ _); try reflexivity.
  discriminate.
Defined.

(** C6 as stated fails: the account is in the OU the target resolves to,
    and the live, confirmed run of either command reports a move and has
    sent one [move_account] request, from that OU to itself. *)
Lemma move_to_current_parent_is_sent :
  list_parents (org_with "ou-a-sandbox" two_sandboxes) "111122223333"
    = Return [ {| Parent_Id := "ou-a-sandbox";
                  Parent_Type := "ORGANIZATIONAL_UNIT" |} ] /\
  ExistingOu.find_ou_by_name (org_with "ou-a-sandbox" two_sandboxes) 3
    "r-root" "Sandbox" = Done (Return (Some "ou-a-sandbox")) /\
  ExistingOu.existing_ou always_valid 3 (org_with "ou-a-sandbox" two_sandboxes)
      "111122223333" "Sandbox" false true
    = (Done (Return Moved),
       [ {| AccountId := "111122223333"; SourceParentId := "ou-a-sandbox";
            DestinationParentId := "ou-a-sandbox" |} ]) /\
  Simple.simple 3 (org_with "ou-a-sandbox" two_sandboxes)
      "acme-prod" "sandbox" false true
    = (Done (Return Moved),
       [ {| AccountId := "111122223333"; SourceParentId := "ou-a-sandbox";
            DestinationParentId := "ou-a-sandbox" |} ]).
Proof. repeat split; vm_compute; reflexivity. Qed.

(** *** The source of [simple] *)

Lemma isdigit_lower_ascii (c : Ascii.ascii) :
  isdigit_ascii (lower_ascii c) = isdigit_ascii c.
Proof.
  destruct c as [[] [] [] [] [] [] [] []]; vm_compute; reflexivity.
Qed.

Lemma all_digits_lower (s : string) : all_digits (lower s) = all_digits s.
Proof.
  induction s as [|c s IH]; simpl; [done|].
  by rewrite isdigit_lower_ascii, IH.
Qed.

Lemma length_lower (s : string) : String.length (lower s) = String.length s.
Proof. induction s as [|c s IH]; simpl; [done|]. by rewrite IH. Qed.

Lemma is_account_id_lower (s : string) :
  is_account_id (lower s) = is_account_id s.
Proof.
  unfold is_account_id. rewrite length_lower. f_equal.
  destruct s as [|c s]; [done|]. simpl.
  by rewrite isdigit_lower_ascii, all_digits_lower.
Qed.

Lemma same_lower_is_account_id (a b : string) :
  String.eqb (lower a) (lower b) = true -> is_account_id a = is_account_id b.
Proof.
  intros H. apply String.eqb_eq in H.
  by rewrite <- (is_account_id_lower a), H, is_account_id_lower.
Qed.

Lemma for_account_in_page_found source page : forall found,
  found_by_name source found ->
  found_by_name source (Simple.for_account_in_page source page found).
Proof.
  induction page as [|a page IH]; intros found Hf; simpl; [done|].
  destruct (String.eqb (lower (Account_Name a)) (lower source)) eqn:Ha.
  - intros name Hname. simpl in Hname. by injection Hname as <-.
  - by apply IH.
Qed.

Lemma for_page_in_accounts_found source ps : forall found found',
  found_by_name source found ->
  Simple.for_page_in_accounts source ps found = Return found' ->
  found_by_name source found'.
Proof.
  induction ps as [|page rest IH|e]; intros found found' Hf Hret;
    simpl in *.
  - by injection Hret as <-.
  - pose proof (for_account_in_page_found source page found Hf) as Hpage.
    destruct (truthy_str (Simple.for_account_in_page source page found).1).
    + by injection Hret as <-.
    + by apply (IH _ _ Hpage).
  - done.
Qed.

Lemma for_account_in_page_names source page : forall found,
  (is_Some found.1 -> is_Some found.2) ->
  is_Some (Simple.for_account_in_page source page found).1 ->
  is_Some (Simple.for_account_in_page source page found).2.
Proof.
  induction page as [|a page IH]; intros found Hf; simpl; [done|].
  destruct (String.eqb (lower (Account_Name a)) (lower source)); simpl;
    [eauto|by apply IH].
Qed.

Lemma for_page_in_accounts_names source ps : forall found found',
  (is_Some found.1 -> is_Some found.2) ->
  Simple.for_page_in_accounts source ps found = Return found' ->
  is_Some found'.1 -> is_Some found'.2.
Proof.
  induction ps as [|page rest IH|e]; intros found found' Hf Hret;
    simpl in *.
  - by injection Hret as <-.
  - pose proof (for_account_in_page_names source page found Hf) as Hpage.
    destruct (truthy_str (Simple.for_account_in_page source page found).1).
    + by injection Hret as <-.
    + by apply (IH _ _ Hpage).
  - done.
Qed.

Lemma find_source_account_by_id orgs source :
  is_account_id source = true ->
  Simple.find_source_account orgs source =
    match describe_account orgs source with
    | Return account_info => inr (source, Account_Name account_info)
    | Raise e => inl (AccountInfoFailed e)
    end.
Proof. intros H. unfold Simple.find_source_account. by rewrite H. Qed.

Lemma find_source_account_by_name orgs source account_id account_name :
  is_account_id source = false ->
  Simple.find_source_account orgs source = inr (account_id, account_name) ->
  String.eqb (lower account_name) (lower source) = true /\
  is_account_id account_name = false.
Proof.
  intros Hsrc. unfold Simple.find_source_account. rewrite Hsrc.
  destruct (Simple.for_page_in_accounts source (list_accounts orgs) (None, None))
    as [[oid oname]|e] eqn:Hsearch; [|done].
  destruct (truthy_str oid) eqn:Hoid; simpl; [|done].
  intros Heq. injection Heq as <- <-.
  assert (Hname : is_Some oname).
  { apply (for_page_in_accounts_names source (list_accounts orgs)
             (None, None) (oid, oname)); [by intros [? ?]|done|].
    destruct oid; [by eexists|done]. }
  destruct Hname as [name ->]. simpl.
  assert (Hsame : String.eqb (lower name) (lower source) = true).
  { apply (for_page_in_accounts_found source (list_accounts orgs)
             (None, None) (oid, Some name)); [by intros ? ?|done|done]. }
  split; [done|]. by rewrite (same_lower_is_account_id _ _ Hsame).
Qed.

(** C10: in [simple], a source of exactly twelve decimal digits is taken as
    the account id and answered by [describe_account] alone, whatever the
    listing of accounts holds; the listing is searched by name only for the
    other sources, and an account it finds has the name of the source up to
    letter case, which is then not twelve digits: an account whose name is
    twelve digits is never the one found by name. *)
Theorem simple_twelve_digits_is_an_id (orgs : organizations) (source : string) :
  (is_account_id source = true ->
     Simple.find_source_account orgs source =
       match describe_account orgs source with
       | Return account_info => inr (source, Account_Name account_info)
       | Raise e => inl (AccountInfoFailed e)
       end) /\
  (forall account_id account_name,
     is_account_id source = false ->
     Simple.find_source_account orgs source = inr (account_id, account_name) ->
     String.eqb (lower account_name) (lower source) = true /\
     is_account_id account_name = false) /\
  (forall account_id account_name,
     is_account_id account_name = true ->
     Simple.find_source_account orgs source = inr (account_id, account_name) ->
     is_account_id source = true /\ account_id = source /\
     exists account_info,
       describe_account orgs source = Return account_info /\
       Account_Name account_info = account_name).
Proof.
  split; [apply find_source_account_by_id|].
  split; [apply find_source_account_by_name|].
  intros account_id account_name Hname Hfound.
  destruct (is_account_id source) eqn:Hsrc.
  - rewrite (find_source_account_by_id orgs source Hsrc) in Hfound.
    destruct (describe_account orgs source) as [info|e]; [|done].
    injection Hfound as <- <-. eauto.
  - destruct (find_source_account_by_name orgs source account_id account_name
                Hsrc Hfound) as [_ Habs].
    congruence.
Qed.

Lemma simple_twelve_digits_is_an_id_witness :
  In digits_account
    (listed (list_accounts (org_with "ou-b" two_sandboxes))) /\
  Account_Name digits_account = "111122223333" /\
  Simple.find_source_account (org_with "ou-b" two_sandboxes) "111122223333"
    = inr ("111122223333", "acme-prod").
Proof.
  split; [left; reflexivity|]. split; [reflexivity|].
  apply (proj1 (simple_twelve_digits_is_an_id
                  (org_with "ou-b" two_sandboxes) "111122223333")).
  reflexivity.
Defined.

(** *** The search always ends *)






End CommandFacts.

(** ** Round trips of the ledger *)

Module LedgerRoundTrips.
Import AFTManager LedgerSpec Samples Views.

(** *** Every operation as a function of the ledger *)

Lemma with_dynamodb_twice d1 d2 st :
  with_dynamodb d2 (with_dynamodb d1 st) = with_dynamodb d2 st.
Proof. done. Qed.

Lemma ledger_with_ledger tbl st : ledger (with_ledger tbl st) = tbl.
Proof. unfold ledger, with_ledger. simpl. by rewrite lookup_insert_eq. Qed.

Lemma with_ledger_twice t1 t2 st :
  with_ledger t2 (with_ledger t1 st) = with_ledger t2 st.
Proof.
  unfold with_ledger. simpl. by rewrite insert_insert_eq.
Qed.

Lemma ledger_exists st tbl :
  dynamodb st !! table_name = Some tbl -> ledger st = tbl.
Proof. intros Htbl. unfold ledger. by rewrite Htbl. Qed.

Lemma with_ledger_exists tbl st :
  dynamodb (with_ledger tbl st) !! table_name = Some tbl.
Proof. unfold with_ledger. simpl. by rewrite lookup_insert_eq. Qed.

(** With the table, a put and a delete succeed. *)
Lemma create_account_request_run st tbl r :
  dynamodb st !! table_name = Some tbl ->
  create_account_request r st =
    (Return (Created (request_id r) "Account request created successfully"),
     with_ledger (<[request_id r := to_dict r]> tbl) st).
Proof.
  intros Htbl.
  unfold create_account_request, try_except, bind.
  rewrite (LedgerFacts._get_table_exists st tbl Htbl).
  unfold put_item. by rewrite Htbl, LedgerFacts.to_dict_key.
Qed.

Lemma delete_account_request_run st tbl request_id :
  dynamodb st !! table_name = Some tbl ->
  delete_account_request request_id st =
    (Return (Deleted ("Account request " +:+ request_id +:+ " deleted")),
     with_ledger (delete request_id tbl) st).
Proof.
  intros Htbl.
  unfold delete_account_request, try_except, bind.
  rewrite (LedgerFacts._get_table_exists st tbl Htbl).
  unfold delete_item. by rewrite Htbl.
Qed.

(** Without the table, they fail and leave the account as it was. *)
Lemma create_account_request_no_table st r :
  dynamodb st !! table_name = None ->
  create_account_request r st = (Return (Failed (str_exn table_refused)), st).
Proof.
  intros Htbl. unfold create_account_request, try_except, bind.
  by rewrite (LedgerFacts._get_table_missing st Htbl).
Qed.

Lemma delete_account_request_no_table st request_id :
  dynamodb st !! table_name = None ->
  delete_account_request request_id st =
    (Return (Failed (str_exn table_refused)), st).
Proof.
  intros Htbl. unfold delete_account_request, try_except, bind.
  by rewrite (LedgerFacts._get_table_missing st Htbl).
Qed.

(** X1: in an account that has the requests table, a put of a request whose
    id is not empty, followed by a get of the same id, answers the record
    that was put; the put reports success, the answers for every other id
    are what they were, and the get changes nothing more. *)
Theorem create_then_get (st : aws) (tbl : table) (r : AccountRequest) :
  dynamodb st !! table_name = Some tbl ->
  request_id r <> "" ->
  (create_account_request r st).1 =
    Return (Created (request_id r) "Account request created successfully") /\
  get_account_request (request_id r) (create_account_request r st).2 =
    (Return (Some (to_dict r)), (create_account_request r st).2) /\
  (forall other, other <> request_id r ->
     (get_account_request other (create_account_request r st).2).1 =
     (get_account_request other st).1).
Proof.
  intros Htbl _.
  rewrite (create_account_request_run st tbl r Htbl). simpl.
  split; [done|]. split.
  - rewrite (LedgerFacts.get_account_request_exists _ _ (request_id r)
               (with_ledger_exists _ st)).
    by rewrite lookup_insert_eq.
  - intros other Hother.
    rewrite (LedgerFacts.get_account_request_exists _ _ other
               (with_ledger_exists _ st)).
    rewrite (LedgerFacts.get_account_request_exists st tbl other Htbl).
    simpl. by rewrite lookup_insert_ne.
Qed.

Lemma create_then_get_witness :
  (create_account_request colliding_request busy_aws).1 =
    Return (Created "migrate-2025-01-10-abc12345"
              "Account request created successfully") /\
  get_account_request "migrate-2025-01-10-abc12345"
      (create_account_request colliding_request busy_aws).2 =
    (Return (Some (to_dict colliding_request)),
     (create_account_request colliding_request busy_aws).2) /\
  (get_account_request "req-2"
     (create_account_request colliding_request busy_aws).2).1 =
  (get_account_request "req-2" busy_aws).1.
Proof.
  destruct (create_then_get busy_aws busy_table colliding_request)
    as (Hput & Hget & Hother); [reflexivity | discriminate |].
  split; [exact Hput|]. split; [exact Hget|].
  apply Hother. discriminate.
Defined.

(** X2: in an account that has the requests table, a delete of an id that
    is not empty reports success, whether or not a record is stored under
    it; afterwards a get of that id answers [None], the answers for every
    other id are what they were, and deleting the same id again leaves the
    store as the first delete left it. *)
Theorem delete_then_get (st : aws) (tbl : table) (request_id : string) :
  dynamodb st !! table_name = Some tbl ->
  request_id <> "" ->
  (delete_account_request request_id st).1 =
    Return (Deleted ("Account request " +:+ request_id +:+ " deleted")) /\
  get_account_request request_id (delete_account_request request_id st).2 =
    (Return None, (delete_account_request request_id st).2) /\
  (forall other, other <> request_id ->
     (get_account_request other (delete_account_request request_id st).2).1 =
     (get_account_request other st).1) /\
  delete_account_request request_id (delete_account_request request_id st).2 =
    (Return (Deleted ("Account request " +:+ request_id +:+ " deleted")),
     (delete_account_request request_id st).2).
Proof.
  intros Htbl _.
  rewrite (delete_account_request_run st tbl request_id Htbl). simpl.
  split; [done|]. split; [|split].
  - rewrite (LedgerFacts.get_account_request_exists _ _ request_id
               (with_ledger_exists _ st)).
    by rewrite lookup_delete_eq.
  - intros other Hother.
    rewrite (LedgerFacts.get_account_request_exists _ _ other
               (with_ledger_exists _ st)).
    rewrite (LedgerFacts.get_account_request_exists st tbl other Htbl).
    simpl. by rewrite lookup_delete_ne.
  - rewrite (delete_account_request_run _ _ request_id
               (with_ledger_exists _ st)).
    by rewrite with_ledger_twice, delete_delete_eq.
Qed.

Lemma delete_then_get_witness :
  (delete_account_request "req-1" busy_aws).1 =
    Return (Deleted "Account request req-1 deleted") /\
  get_account_request "req-1" (delete_account_request "req-1" busy_aws).2 =
    (Return None, (delete_account_request "req-1" busy_aws).2) /\
  (get_account_request "req-2" (delete_account_request "req-1" busy_aws).2).1 =
  (get_account_request "req-2" busy_aws).1 /\
  delete_account_request "req-1" (delete_account_request "req-1" busy_aws).2 =
    (Return (Deleted "Account request req-1 deleted"),
     (delete_account_request "req-1" busy_aws).2).
Proof.
  destruct (delete_then_get busy_aws busy_table "req-1")
    as (Hdel & Hget & Hother & Hagain); [reflexivity | discriminate |].
  split; [exact Hdel|]. split; [exact Hget|]. split; [|exact Hagain].
  apply Hother. discriminate.
Defined.

End LedgerRoundTrips.

(** ** Updates of the ledger *)

Module UpdateOutcomes.
Import AFTManager LedgerSpec Samples Views LedgerRoundTrips.

Section Update.

Variable refused_name : string -> bool.

Lemma update_account_request_unfold now request_id updates st tbl :
  dynamodb st !! table_name = Some tbl ->
  let l := map_to_list (<["updated_date" := VStr now]> updates) in
  update_account_request refused_name now request_id updates st =
    match apply_set refused_name (kwargs_of request_id l)
            (record_before request_id tbl) (assignment_of <$> l) with
    | Return new =>
        (Return (Updated new), with_ledger (<[request_id := new]> tbl) st)
    | Raise e => (Return (Failed (str_exn e)), st)
    end.
Proof.
  intros Htbl l.
  unfold update_account_request, try_except, bind.
  rewrite (LedgerFacts._get_table_exists st tbl Htbl).
  rewrite LedgerFacts.foldl_add_assignment. simpl.
  unfold update_item. rewrite Htbl. simpl.
  fold l. fold (kwargs_of request_id l).
  fold (record_before request_id tbl).
  by destruct (apply_set _ _ _ _) as [new|e].
Qed.

(** Without the table, an update fails and leaves the account as it was. *)
Lemma update_account_request_no_table now request_id updates st :
  dynamodb st !! table_name = None ->
  update_account_request refused_name now request_id updates st =
    (Return (Failed (str_exn table_refused)), st).
Proof.
  intros Htbl. unfold update_account_request, try_except, bind.
  by rewrite (LedgerFacts._get_table_missing st Htbl).
Qed.

Lemma names_of_only_status l : forall ns n,
  names_of ns l !! "#status" = Some n ->
  ns !! "#status" = Some n \/ n = "status".
Proof.
  induction l as [|[k v] l IH]; intros ns n Hn; [by left|].
  unfold names_of in Hn. simpl in Hn.
  apply IH in Hn as [Hn|Hn]; [|by right].
  destruct (decide (k = "status")); [|by left].
  rewrite lookup_insert_eq in Hn. right. congruence.
Qed.

(** An update expression that the store takes has made every assignment. *)
Lemma apply_set_returns request_id all l : forall item new,
  NoDup all.*1 ->
  l ⊆ all ->
  apply_set refused_name (kwargs_of request_id all) item
    (assignment_of <$> l) = Return new ->
  new = assign_all item l.
Proof.
  induction l as [|[k v] l IH]; intros item new Hnd Hsub Hret; simpl in *.
  - by injection Hret.
  - destruct (apply_assignment _ _ _ _) as [item'|e] eqn:Hone; [|done].
    assert (Hin : (k, v) ∈ all) by (apply Hsub; left).
    assert (Hitem : item' = <[k := v]> item).
    { unfold apply_assignment, assignment_of in Hone. simpl in Hone.
      pose proof (LedgerFacts.values_of_lookup all ∅ k v Hnd Hin) as Hval.
      destruct (decide (k = "status")) as [->|Hk]; simpl in Hone.
      - destruct (decide (names_of ∅ all = ∅)) as [Hempty|Hne];
          simpl in Hone; [done|].
        destruct (names_of ∅ all !! "#status") as [n|] eqn:Hn; [|done].
        apply names_of_only_status in Hn as [Hn | ->];
          [by rewrite lookup_empty in Hn|].
        destruct (decide ("status" = "request_id")); [done|].
        change ":status" with (":" +:+ "status") in Hone.
        rewrite Hval in Hone. by injection Hone.
      - destruct (refused_name k); [done|].
        destruct (decide (k = "request_id")); [done|].
        rewrite Hval in Hone. by injection Hone. }
    subst item'. unfold assign_all. simpl.
    apply (IH _ _ Hnd); [|done].
    intros x Hx. apply Hsub. by right.
Qed.

(** X3: an update never raises. Either the store refuses it, and the update
    reports a failure and every record is as it was; or it reports success
    and the record stored under the id, which is also the one returned, is
    the record the update started from (the stored one, or the key alone)
    with the given fields and the stamp over it, every other record being
    as it was. *)
Theorem update_account_request_outcome (now request_id : string)
    (updates : dict) (st : aws) :
  let result := update_account_request refused_name now request_id updates st in
  let new := updated_record now request_id updates (ledger st) in
  (exists error, result.1 = Return (Failed error) /\ ledger result.2 = ledger st)
  \/ (result = (Return (Updated new),
                with_ledger (<[request_id := new]> (ledger st)) st)).
Proof.
  intros result new. subst result new.
  destruct (dynamodb st !! table_name) as [tbl|] eqn:Htbl.
  - rewrite (update_account_request_unfold now request_id updates st tbl Htbl).
    rewrite (ledger_exists st tbl Htbl).
    set (l := map_to_list (<["updated_date" := VStr now]> updates)).
    assert (Hnd : NoDup l.*1) by apply NoDup_fst_map_to_list.
    destruct (apply_set _ _ _ _) as [new'|e] eqn:Hset.
    + right.
      apply (apply_set_returns request_id l l _ _ Hnd) in Hset; [|done].
      rewrite (LedgerFacts.assign_all_union l _ Hnd) in Hset.
      unfold l in Hset. rewrite list_to_map_to_list in Hset.
      by subst new'.
    + left. exists (str_exn e). split; [done|]. simpl.
      by apply ledger_exists.
  - rewrite (update_account_request_no_table now request_id updates st Htbl).
    left. eauto.
Qed.

(** An accepted update, on an account that has the table. *)
Lemma update_account_request_run now request_id updates st tbl :
  dynamodb st !! table_name = Some tbl ->
  updates !! "request_id" = None ->
  refused_name "updated_date" = false ->
  (forall k, is_Some (updates !! k) -> k <> "status" -> refused_name k = false) ->
  update_account_request refused_name now request_id updates st =
    (Return (Updated (updated_record now request_id updates tbl)),
     with_ledger
       (<[request_id := updated_record now request_id updates tbl]> tbl) st).
Proof.
  intros Htbl Hkey Hstamp Hnames.
  by rewrite (LedgerFacts.update_account_request_accepted refused_name now
                request_id updates st tbl Htbl Hkey Hstamp Hnames).
Qed.

Lemma restamp now1 now2 request_id updates tbl :
  updated_record now2 request_id updates
    (<[request_id := updated_record now1 request_id updates tbl]> tbl)
  = <["updated_date" := VStr now2]> (updated_record now1 request_id updates tbl).
Proof.
  unfold updated_record at 1. unfold record_before.
  rewrite lookup_insert_eq. simpl.
  apply map_eq. intros k.
  destruct (decide (k = "updated_date")) as [->|Hk].
  - rewrite lookup_insert_eq.
    apply lookup_union_Some_l, lookup_insert_eq.
  - rewrite (lookup_insert_ne _ "updated_date" k) by done.
    unfold updated_record.
    rewrite !lookup_union, !(lookup_insert_ne _ "updated_date" k) by done.
    destruct (updates !! k) as [v|]; simpl.
    + by destruct (record_before request_id tbl !! k).
    + by destruct (record_before request_id tbl !! k).
Qed.

(** X4: in an account that has the requests table, repeating an accepted
    update of an id that is not empty, with the same fields at a later
    time, changes the stamp and nothing else: the record stored after the
    second update is the one stored after the first with [updated_date] set
    to the later time, and the other records are as the first update left
    them. *)
Theorem update_account_request_twice (now1 now2 request_id : string)
    (updates : dict) (st : aws) (tbl : table) :
  dynamodb st !! table_name = Some tbl ->
  request_id <> "" ->
  updates !! "request_id" = None ->
  refused_name "updated_date" = false ->
  (forall k, is_Some (updates !! k) -> k <> "status" -> refused_name k = false) ->
  let first := updated_record now1 request_id updates tbl in
  let st1 := (update_account_request refused_name now1 request_id updates st).2 in
  ledger st1 = <[request_id := first]> tbl /\
  update_account_request refused_name now2 request_id updates st1 =
    (Return (Updated (<["updated_date" := VStr now2]> first)),
     with_ledger
       (<[request_id := <["updated_date" := VStr now2]> first]> tbl) st).
Proof.
  intros Htbl _ Hkey Hstamp Hnames first st1. subst st1.
  rewrite (update_account_request_run now1 request_id updates st tbl
             Htbl Hkey Hstamp Hnames). simpl.
  rewrite ledger_with_ledger. split; [done|].
  rewrite (update_account_request_run now2 request_id updates _ _
             (with_ledger_exists _ st) Hkey Hstamp Hnames).
  rewrite with_ledger_twice, restamp.
  by rewrite insert_insert_eq.
Qed.

End Update.

Lemma update_account_request_twice_witness :
  ledger (update_account_request reserved_sample "2025-01-10T12:00:00"
            "req-1" completed busy_aws).2
    = <["req-1" := updated_record "2025-01-10T12:00:00" "req-1" completed
                     busy_table]> busy_table /\
  update_account_request reserved_sample "2025-01-11T08:30:00" "req-1"
      completed
      (update_account_request reserved_sample "2025-01-10T12:00:00"
         "req-1" completed busy_aws).2
    = (Return (Updated
         (<["updated_date" := VStr "2025-01-11T08:30:00"]>
            (updated_record "2025-01-10T12:00:00" "req-1" completed
               busy_table))),
       with_ledger
         (<["req-1" := <["updated_date" := VStr "2025-01-11T08:30:00"]>
                         (updated_record "2025-01-10T12:00:00" "req-1"
                            completed busy_table)]> busy_table) busy_aws).
Proof.
  refine (update_account_request_twice reserved_sample
            "2025-01-10T12:00:00" "2025-01-11T08:30:00" "req-1" completed
            busy_aws busy_table _ _ _ _ _).
  - reflexivity.
  - discriminate.
  - reflexivity.
  - reflexivity.
  - intros k [v Hv] Hk. unfold completed in Hv.
    destruct (decide (k = "status")) as [->|Hne]; [done|].
    by rewrite lookup_insert_ne, lookup_empty in Hv.
Defined.

End UpdateOutcomes.

(** ** Listing and counting the requests *)

Module ListingFacts.
Import AFTManager Status LedgerSpec Samples Views LedgerRoundTrips.

Lemma scan_order_stored tbl item :
  item ∈ scan_order tbl <-> exists key, tbl !! key = Some item.
Proof.
  unfold scan_order. rewrite list_elem_of_fmap. split.
  - intros [[k v] [-> Hin]]. exists k. by apply elem_of_map_to_list.
  - intros [k Hk]. exists (k, item). split; [done|].
    by apply elem_of_map_to_list.
Qed.

Lemma length_scan_order tbl : length (scan_order tbl) = size tbl.
Proof. unfold scan_order. by rewrite length_fmap, length_map_to_list. Qed.

Lemma attr_str_Some item key s :
  attr_str item key = Some s -> item !! key = Some (VStr s).
Proof.
  unfold attr_str. destruct (item !! key) as [[s'| |r t]|]; try done.
  by intros [= ->].
Qed.

Lemma key_condition_client client_id status item :
  key_condition client_id status item ->
  item !! "client_id" = Some (VStr client_id) /\
  (forall s, status = Some s -> item !! "status" = Some (VStr s)).
Proof.
  unfold key_condition, index_keys.
  destruct (attr_str item "client_id") as [c|] eqn:Hc; [|done].
  destruct (attr_str item "status") as [s'|] eqn:Hs; [|done].
  intros [-> Hstatus]. split; [by apply attr_str_Some|].
  intros s ->. destruct Hstatus as [|[= ->]]; [done|by apply attr_str_Some].
Qed.

Lemma check_limit_ok limit :
  (1 <= limit)%Z -> check_limit limit = Return (Z.to_nat limit).
Proof.
  intros H. unfold check_limit.
  destruct (Z.ltb_spec limit 1); [lia|done].
Qed.

Lemma scan_run name tbl status limit st :
  dynamodb st !! name = Some tbl -> (1 <= limit)%Z ->
  scan name status limit st =
    (Return match status with
            | Some s => filter (fun item => attr_str item "status" = Some s)
                          (take (Z.to_nat limit) (scan_order tbl))
            | None => take (Z.to_nat limit) (scan_order tbl)
            end, st).
Proof.
  intros Htbl Hlimit. unfold scan.
  by rewrite (check_limit_ok limit Hlimit), Htbl.
Qed.

Lemma query_index_run name tbl client_id status limit st :
  dynamodb st !! name = Some tbl -> (1 <= limit)%Z ->
  query_index name client_id status limit st =
    (Return (take (Z.to_nat limit)
               (merge_sort status_le
                  (filter (key_condition client_id status) (scan_order tbl)))),
     st).
Proof.
  intros Htbl Hlimit. unfold query_index.
  by rewrite (check_limit_ok limit Hlimit), Htbl.
Qed.

Lemma elem_of_take {A} (x : A) n l : x ∈ take n l -> x ∈ l.
Proof.
  intros H. apply list_elem_of_lookup in H as [i Hi].
  apply list_elem_of_lookup. exists i.
  by apply lookup_take_Some in Hi as [? _].
Qed.

Lemma query_index_items client_id status tbl n item :
  item ∈ take n (merge_sort status_le
                   (filter (key_condition client_id status) (scan_order tbl))) ->
  item ∈ scan_order tbl /\ key_condition client_id status item.
Proof.
  intros H. apply elem_of_take in H.
  rewrite merge_sort_Permutation in H.
  by apply list_elem_of_filter in H as [? ?].
Qed.

(** X5: on an account that has the table, a listing with a limit of at
    least one answers at most [limit] records and changes nothing; every
    record it answers is stored in the ledger, has the given client when a
    client is given, and has the given status when a status is given. *)
Theorem list_account_requests_sound (st : aws) (tbl : table)
    (client_id status : option string) (limit : Z) :
  dynamodb st !! table_name = Some tbl ->
  (1 <= limit)%Z ->
  exists items,
    list_account_requests client_id status limit st = (Return items, st) /\
    length items <= Z.to_nat limit /\
    forall item, item ∈ items ->
      (exists key, tbl !! key = Some item) /\
      (forall c, client_id = Some c -> c <> "" ->
         item !! "client_id" = Some (VStr c)) /\
      (forall s, status = Some s -> s <> "" ->
         item !! "status" = Some (VStr s)).
Proof.
  intros Htbl Hlimit.
  unfold list_account_requests, try_except, bind.
  rewrite (LedgerFacts._get_table_exists st tbl Htbl).
  destruct client_id as [c|]; simpl.
  - destruct (String.eqb_spec c "") as [->|Hc]; simpl.
    + (* an empty client is no client *)
      destruct status as [s|]; simpl.
      * destruct (String.eqb_spec s "") as [->|Hs]; simpl;
          rewrite (scan_run _ tbl _ limit st Htbl Hlimit);
          eexists; (split; [reflexivity|]).
        -- split; [rewrite length_take; lia|].
           intros item Hin. apply elem_of_take in Hin.
           split; [by apply scan_order_stored|]. split; [by intros ? [= <-]|].
           by intros ? [= <-].
        -- split; [etrans; [apply length_filter|rewrite length_take; lia]|].
           intros item Hin. apply list_elem_of_filter in Hin as [Hst Hin].
           apply elem_of_take in Hin.
           split; [by apply scan_order_stored|]. split; [by intros ? [= <-]|].
           intros ? [= <-] _. by apply attr_str_Some.
      * rewrite (scan_run _ tbl _ limit st Htbl Hlimit).
        eexists. split; [reflexivity|].
        split; [rewrite length_take; lia|].
        intros item Hin. apply elem_of_take in Hin.
        split; [by apply scan_order_stored|]. split; [by intros ? [= <-]|done].
    + destruct (truthy_str status) eqn:Hstatus; simpl;
        rewrite (query_index_run _ tbl c _ limit st Htbl Hlimit);
        eexists; (split; [reflexivity|]);
        (split; [rewrite length_take; lia|]);
        intros item Hin; apply query_index_items in Hin as [Hin Hcond];
        apply key_condition_client in Hcond as [Hclient Hstat];
        (split; [by apply scan_order_stored|]);
        (split; [by intros ? [= <-]|]).
      * intros s Hs _. by apply Hstat.
      * intros s -> Hs. simpl in Hstatus.
        by destruct (String.eqb_spec s "").
  - destruct status as [s|]; simpl.
    + destruct (String.eqb_spec s "") as [->|Hs]; simpl;
        rewrite (scan_run _ tbl _ limit st Htbl Hlimit);
        eexists; (split; [reflexivity|]).
      * split; [rewrite length_take; lia|].
        intros item Hin. apply elem_of_take in Hin.
        split; [by apply scan_order_stored|]. split; [done|].
        by intros ? [= <-].
      * split; [etrans; [apply length_filter|rewrite length_take; lia]|].
        intros item Hin. apply list_elem_of_filter in Hin as [Hst Hin].
        apply elem_of_take in Hin.
        split; [by apply scan_order_stored|]. split; [done|].
        intros ? [= <-] _. by apply attr_str_Some.
    + rewrite (scan_run _ tbl _ limit st Htbl Hlimit).
      eexists. split; [reflexivity|].
      split; [rewrite length_take; lia|].
      intros item Hin. apply elem_of_take in Hin.
      split; [by apply scan_order_stored|]. done.
Qed.

Lemma list_account_requests_sound_witness :
  exists items,
    list_account_requests (Some "acme") (Some "pending") 5 busy_aws
      = (Return items, busy_aws) /\
    length items <= 5 /\
    forall item, item ∈ items ->
      (exists key, busy_table !! key = Some item) /\
      (forall c, Some "acme" = Some c -> c <> "" ->
         item !! "client_id" = Some (VStr c)) /\
      (forall s, Some "pending" = Some s -> s <> "" ->
         item !! "status" = Some (VStr s)).
Proof.
  apply (list_account_requests_sound busy_aws busy_table
           (Some "acme") (Some "pending") 5); [reflexivity|lia].
Defined.

End ListingFacts.

(** ** The overview of the requests *)

Module OverviewFacts.
Import AFTManager Status LedgerSpec Samples Views LedgerRoundTrips.

Lemma foldl_count_status l : forall acc v,
  default 0 (foldl count_status acc l !! v) =
    default 0 (acc !! v) + length (filter (fun req => status_of req = v) l).
Proof.
  induction l as [|req l IH]; intros acc v; simpl; [lia|].
  rewrite IH, filter_cons. unfold count_status at 1.
  destruct (decide (status_of req = v)) as [->|Hne].
  - rewrite lookup_insert_eq. simpl. lia.
  - by rewrite lookup_insert_ne.
Qed.

Lemma status_counts_count l v :
  default 0 (status_counts l !! v) =
    length (filter (fun req => status_of req = v) l).
Proof.
  unfold status_counts. by rewrite foldl_count_status, lookup_empty.
Qed.

Lemma four_counts_le (l : list dict) (a b c d : value) :
  a <> b -> a <> c -> a <> d -> b <> c -> b <> d -> c <> d ->
  length (filter (fun req => status_of req = a) l)
  + length (filter (fun req => status_of req = b) l)
  + length (filter (fun req => status_of req = c) l)
  + length (filter (fun req => status_of req = d) l) <= length l.
Proof.
  intros Hab Hac Had Hbc Hbd Hcd.
  induction l as [|req l IH]; simpl; [lia|].
  rewrite !filter_cons.
  destruct (decide (status_of req = a)) as [Ha|Ha];
  destruct (decide (status_of req = b)) as [Hb|Hb];
  destruct (decide (status_of req = c)) as [Hc|Hc];
  destruct (decide (status_of req = d)) as [Hd|Hd];
    simpl; try congruence; lia.
Qed.

(** X6: on an account that has the table, the overview counts the first
    ten records the scan answers and no more: its total is the smaller of
    ten and the number of stored records. Each of the four numbers it shows
    is the number of those records whose status is that very string, a
    record without a status counting as ["unknown"], so that the four add
    up to the total at most; nothing is changed. *)
Theorem overview_counts_ten (st : aws) (tbl : table) :
  dynamodb st !! table_name = Some tbl ->
  (forall key item v, tbl !! key = Some item -> item !! "status" = Some v ->
     plain v = true) ->
  let recent := take 10 (scan_order tbl) in
  let shown := overview_of recent in
  overview st = (Return (inl shown), st) /\
  total_requests shown = 10 `min` size tbl /\
  pending shown
    = length (filter (fun req => status_of req = VStr "pending") recent) /\
  in_progress shown
    = length (filter (fun req => status_of req = VStr "in_progress") recent) /\
  Status.completed shown
    = length (filter (fun req => status_of req = VStr "completed") recent) /\
  failed shown
    = length (filter (fun req => status_of req = VStr "failed") recent) /\
  pending shown + in_progress shown + Status.completed shown + failed shown
    <= total_requests shown.
Proof.
  intros Htbl _ recent shown. subst shown.
  split.
  { unfold overview, list_account_requests, try_except, bind. simpl.
    rewrite (LedgerFacts._get_table_exists st tbl Htbl).
    by rewrite (ListingFacts.scan_run _ tbl None 10 st Htbl). }
  unfold overview_of. simpl.
  rewrite !status_counts_count.
  split; [subst recent; by rewrite length_take, ListingFacts.length_scan_order|].
  repeat (split; [done|]).
  by apply four_counts_le.
Qed.

Lemma overview_counts_ten_witness :
  overview busy_aws =
    (Return (inl {| total_requests := 4; pending := 3; in_progress := 0;
                    Status.completed := 1; failed := 0 |}), busy_aws).
Proof.
  refine (proj1 (overview_counts_ten busy_aws busy_table _ _)).
  - reflexivity.
  - intros key item v Hitem Hv.
    unfold busy_table in Hitem.
    repeat (apply lookup_insert_Some in Hitem as [[_ <-]|[_ Hitem]];
            [unfold request in Hv;
             repeat (apply lookup_insert_Some in Hv as [[_ <-]|[_ Hv]];
                     [done|]); done|]).
    done.
Defined.

End OverviewFacts.

(** ** Listing the OUs *)

Module ListOusFacts.
Import Migrate Hierarchy Samples Views.

Lemma find_fmap {A B} (f : A -> B) (p : B -> bool) (l : list A) :
  List.find p (f <$> l) = f <$> List.find (fun x => p (f x)) l.
Proof.
  induction l as [|a l IH]; simpl; [done|].
  by destruct (p (f a)).
Qed.

Section Gather.

Variable descend : OU -> option (list OUEntry * list warning).
Variable parent_name : string.
Variable level : nat.

(** *** When every listing succeeds *)

Lemma gather_page_all (below : OU -> list OUEntry) page : forall acc,
  (forall x, x ∈ page -> descend x = Some (below x, [])) ->
  gather_page descend level page acc =
    Some (acc.1 ++ flat_map (fun x => entry_of level x :: below x) page, acc.2).
Proof.
  induction page as [|x page IH]; intros acc Hd; simpl.
  - rewrite app_nil_r. by destruct acc.
  - rewrite (Hd x) by left. rewrite IH.
    + simpl. by rewrite app_nil_r, <- app_assoc.
    + intros x' Hin. apply Hd. by right.
Qed.

Lemma gather_pages_all (below : OU -> list OUEntry) ps ous : forall acc,
  exhaust ps = Return ous ->
  (forall x, x ∈ ous -> descend x = Some (below x, [])) ->
  gather_pages descend parent_name level ps acc =
    Some (acc.1 ++ flat_map (fun x => entry_of level x :: below x) ous, acc.2).
Proof.
  revert ous. induction ps as [|page rest IH|e]; intros ous acc Hex Hd;
    simpl in *.
  - injection Hex as <-. simpl. rewrite app_nil_r. by destruct acc.
  - destruct (exhaust rest) as [l|e]; [|done]. injection Hex as <-.
    rewrite (gather_page_all below).
    + rewrite (IH l); [|done|].
      * simpl. by rewrite flat_map_app, app_assoc.
      * intros x Hin. apply Hd, elem_of_app. by right.
    + intros x Hin. apply Hd, elem_of_app. by left.
  - done.
Qed.

(** *** Whatever the listings do *)

Lemma gather_page_some (below : OU -> list OUEntry * list warning) page :
  forall acc,
  (forall x, x ∈ page -> descend x = Some (below x)) ->
  gather_page descend level page acc =
    Some (acc.1 ++ flat_map (fun x => entry_of level x :: (below x).1) page,
          acc.2 ++ flat_map (fun x => (below x).2) page).
Proof.
  induction page as [|x page IH]; intros acc Hd; simpl.
  - rewrite !app_nil_r. by destruct acc.
  - rewrite (Hd x) by left. destruct (below x) as [child w] eqn:Hx.
    rewrite IH.
    + simpl. by rewrite <- !app_assoc.
    + intros x' Hin. apply Hd. by right.
Qed.

Lemma gather_pages_some (below : OU -> list OUEntry * list warning) ps :
  forall acc,
  (forall x, x ∈ listed ps -> descend x = Some (below x)) ->
  exists warnings,
    gather_pages descend parent_name level ps acc =
      Some (acc.1 ++ flat_map (fun x => entry_of level x :: (below x).1)
                       (listed ps),
            acc.2 ++ warnings) /\
    (forall e, exhaust ps = Raise e -> (parent_name, str_exn e) ∈ warnings).
Proof.
  induction ps as [|page rest IH|e]; intros acc Hd; simpl in *.
  - exists []. rewrite !app_nil_r. split; [by destruct acc|done].
  - rewrite (gather_page_some below).
    + destruct (IH (acc.1 ++ flat_map (fun x => entry_of level x :: (below x).1) page,
                    acc.2 ++ flat_map (fun x => (below x).2) page))
        as (w & Hrun & Hwarn).
      { intros x Hin. apply Hd, elem_of_app. by right. }
      rewrite Hrun. simpl. eexists. split.
      * by rewrite flat_map_app, <- !app_assoc.
      * intros e He. apply elem_of_app. right. apply Hwarn.
        by destruct (exhaust rest).
    + intros x Hin. apply Hd, elem_of_app. by left.
  - exists [(parent_name, str_exn e)]. rewrite app_nil_r.
    split; [done|]. intros e' [= <-]. left.
Qed.

End Gather.

Lemma get_ous_recursive_preorder orgs d : forall fuel parent_id parent_name level,
  depth_within orgs d parent_id = true ->
  listings_sound orgs d parent_id = true ->
  d <= fuel ->
  exists entries,
    get_ous_recursive orgs fuel parent_id parent_name level = Some (entries, []) /\
    ou_of_entry <$> entries = preorder orgs d parent_id.
Proof.
  induction d as [|d IH]; intros fuel parent_id parent_name level Hd Hs Hfuel;
    [done|].
  destruct fuel as [|fuel]; [lia|]. simpl in *. unfold children in *.
  destruct (exhaust _) as [ous|e] eqn:Hex; [|done].
  rewrite (ResolverFacts.exhaust_listed _ _ Hex) in *.
  rewrite forallb_forall in Hd, Hs.
  assert (Hsub : forall x, x ∈ ous ->
            exists entries,
              get_ous_recursive orgs fuel (OU_Id x) (OU_Name x) (S level)
                = Some (entries, []) /\
              ou_of_entry <$> entries = preorder orgs d (OU_Id x)).
  { intros x Hin. apply list_elem_of_In in Hin.
    specialize (Hd x Hin). specialize (Hs x Hin).
    apply andb_true_iff in Hs as [_ Hs]. apply IH; [done|done|lia]. }
  set (below := fun x =>
         default [] (fst <$> get_ous_recursive orgs fuel (OU_Id x) (OU_Name x)
                               (S level))).
  rewrite (gather_pages_all _ parent_name level below _ ous); [|done|].
  - eexists. split; [reflexivity|]. simpl.
    clear Hex Hd Hs. induction ous as [|x ous IHous]; [done|].
    simpl. rewrite fmap_app. f_equal; [by destruct x|]. f_equal.
    + destruct (Hsub x) as (entries & Hrun & Hpre); [left|].
      unfold below. by rewrite Hrun.
    + apply IHous. intros x' Hin. apply Hsub. by right.
  - intros x Hin. destruct (Hsub x Hin) as (entries & Hrun & _).
    unfold below. by rewrite Hrun.
Qed.

(** X7: on a hierarchy of bounded depth whose listings end without an error
    and whose ids are not empty, [get_ous_recursive] prints no warning and
    lists the OUs in the order in which [find_ou_by_name] compares them:
    the OU the [find_ou_by_name] of [simple] answers for a name is the
    first entry of the list that has the name up to letter case, and the
    one of [existing_ou] answers the first entry that has exactly the
    name. *)
Theorem list_ous_is_the_search_order (orgs : organizations) (d fuel : nat)
    (parent_id parent_name ou_name : string) :
  depth_within orgs d parent_id = true ->
  listings_sound orgs d parent_id = true ->
  d <= fuel ->
  exists entries,
    get_ous_recursive orgs fuel parent_id parent_name 0 = Some (entries, []) /\
    Simple.find_ou_by_name orgs fuel parent_id ou_name =
      Done (Return
        (entry_id <$>
           List.find (fun e => String.eqb (lower (entry_name e)) (lower ou_name))
             entries)) /\
    ExistingOu.find_ou_by_name orgs fuel parent_id ou_name =
      Done (Return
        (entry_id <$>
           List.find (fun e => String.eqb (entry_name e) ou_name) entries)).
Proof.
  intros Hd Hs Hfuel.
  destruct (get_ous_recursive_preorder orgs d fuel parent_id parent_name 0
              Hd Hs Hfuel) as (entries & Hrun & Hpre).
  exists entries. split; [done|].
  unfold Simple.find_ou_by_name, ExistingOu.find_ou_by_name.
  rewrite !(ResolverFacts.find_ou_by_name_with_preorder _ orgs ou_name d fuel
              parent_id Hd Hs Hfuel).
  unfold first_in_preorder. rewrite <- Hpre, !find_fmap.
  split; by destruct (List.find _ entries).
Qed.

Lemma list_ous_is_the_search_order_witness :
  exists entries,
    get_ous_recursive (org_with "ou-b" two_sandboxes) 3 "r-root" "Root" 0
      = Some (entries, []) /\
    Simple.find_ou_by_name (org_with "ou-b" two_sandboxes) 3 "r-root" "sandbox" =
      Done (Return
        (entry_id <$>
           List.find (fun e => String.eqb (lower (entry_name e)) (lower "sandbox"))
             entries)) /\
    ExistingOu.find_ou_by_name (org_with "ou-b" two_sandboxes) 3 "r-root" "sandbox" =
      Done (Return
        (entry_id <$>
           List.find (fun e => String.eqb (entry_name e) "sandbox") entries)).
Proof.
  apply (list_ous_is_the_search_order (org_with "ou-b" two_sandboxes) 3 3
           "r-root" "Root" "sandbox"); [reflexivity|reflexivity|lia].
Defined.

(** *** Failures of the listing *)

Lemma get_ous_recursive_levels orgs fuel : forall parent_id parent_name level
    entries warnings,
  get_ous_recursive orgs fuel parent_id parent_name level
    = Some (entries, warnings) ->
  forall e, e ∈ entries -> level <= entry_level e.
Proof.
  induction fuel as [|fuel IH];
    intros parent_id parent_name level entries warnings Hrun e Hin; [done|].
  simpl in Hrun.
  assert (Hpages : forall ps acc res,
            (forall e, e ∈ acc.1 -> level <= entry_level e) ->
            gather_pages
              (fun ou => get_ous_recursive orgs fuel (OU_Id ou) (OU_Name ou) (S level))
              parent_name level ps acc = Some res ->
            forall e, e ∈ res.1 -> level <= entry_level e).
  { assert (Hpage : forall page acc res,
              (forall e, e ∈ acc.1 -> level <= entry_level e) ->
              gather_page
                (fun ou => get_ous_recursive orgs fuel (OU_Id ou) (OU_Name ou) (S level))
                level page acc = Some res ->
              forall e, e ∈ res.1 -> level <= entry_level e).
    { induction page as [|x page IHp]; intros acc res Hacc Hres; simpl in Hres.
      - by injection Hres as <-.
      - destruct (get_ous_recursive orgs fuel (OU_Id x) (OU_Name x) (S level))
          as [[child w]|] eqn:Hx; [|done].
        apply (IHp (acc.1 ++ entry_of level x :: child, acc.2 ++ w) res);
          [|done].
        simpl. intros e' He'.
        apply elem_of_app in He' as [He'|He']; [by apply Hacc|].
        apply elem_of_cons in He' as [->|He']; [done|].
        pose proof (IH _ _ _ _ _ Hx e' He'). lia. }
    induction ps as [|page rest IHps|err]; intros acc res Hacc Hres;
      simpl in Hres.
    - by injection Hres as <-.
    - destruct (gather_page _ _ _ _) as [acc'|] eqn:Hp; [|done].
      apply (IHps acc' res); [|done]. by apply (Hpage page acc).
    - by injection Hres as <-. }
  apply (Hpages (list_organizational_units_for_parent orgs parent_id)
           ([], []) (entries, warnings)); [|done|done].
  simpl. intros e' He'. by apply elem_of_nil in He'.
Qed.

Lemma get_ous_recursive_some orgs d : forall fuel parent_id parent_name level,
  depth_within orgs d parent_id = true ->
  d <= fuel ->
  is_Some (get_ous_recursive orgs fuel parent_id parent_name level).
Proof.
  induction d as [|d IH]; intros fuel parent_id parent_name level Hd Hfuel;
    [done|].
  destruct fuel as [|fuel]; [lia|]. simpl in *.
  rewrite forallb_forall in Hd.
  set (below := fun x =>
         default ([], []) (get_ous_recursive orgs fuel (OU_Id x) (OU_Name x)
                             (S level))).
  destruct (gather_pages_some
              (fun ou => get_ous_recursive orgs fuel (OU_Id ou) (OU_Name ou) (S level))
              parent_name level below
              (list_organizational_units_for_parent orgs parent_id) ([], []))
    as (w & Hrun & _); [|by rewrite Hrun].
  intros x Hin. apply list_elem_of_In in Hin.
  destruct (IH fuel (OU_Id x) (OU_Name x) (S level)) as [r Hr];
    [by apply Hd|lia|].
  unfold below. by rewrite Hr.
Qed.

Lemma filter_none {A} (P : A -> Prop) `{forall x, Decision (P x)} (l : list A) :
  (forall x, x ∈ l -> ~ P x) -> filter P l = [].
Proof.
  induction l as [|a l IH]; intros Hl; [done|].
  rewrite filter_cons_False by (apply Hl; left).
  apply IH. intros x Hx. apply Hl. by right.
Qed.

Lemma filter_level_children level (below : OU -> list OUEntry) ous :
  (forall x e, x ∈ ous -> e ∈ below x -> S level <= entry_level e) ->
  filter (fun e => entry_level e = level)
    (flat_map (fun x => entry_of level x :: below x) ous)
  = entry_of level <$> ous.
Proof.
  induction ous as [|x ous IH]; intros Hbelow; [done|].
  simpl. rewrite filter_cons_True by done.
  rewrite filter_app. f_equal.
  rewrite (filter_none _ (below x)).
  - apply IH. intros x' e Hx He. apply (Hbelow x'); [by right|done].
  - intros e He Hlevel.
    pose proof (Hbelow x e (list_elem_of_here _ _) He). lia.
Qed.

(** X8: on a hierarchy of bounded depth, [get_ous_recursive] returns a list
    whatever the listings do: a listing that fails stops the loop over that
    parent only. Every OU that was listed under the parent before the
    failure is in the list, at the level of the call and in the order of
    the pages, and the failure is printed as a warning that names the
    parent. *)
Theorem get_ous_recursive_keeps_listed (orgs : organizations) (d fuel : nat)
    (parent_id parent_name : string) (level : nat) :
  depth_within orgs d parent_id = true ->
  d <= fuel ->
  exists entries warnings,
    get_ous_recursive orgs fuel parent_id parent_name level
      = Some (entries, warnings) /\
    filter (fun e => entry_level e = level) entries
      = entry_of level <$> children orgs parent_id /\
    (forall e,
       exhaust (list_organizational_units_for_parent orgs parent_id) = Raise e ->
       (parent_name, str_exn e) ∈ warnings).
Proof.
  intros Hd Hfuel.
  destruct d as [|d]; [done|]. destruct fuel as [|fuel]; [lia|].
  simpl in *. rewrite forallb_forall in Hd.
  set (below := fun x =>
         default ([], []) (get_ous_recursive orgs fuel (OU_Id x) (OU_Name x)
                             (S level))).
  assert (Hsub : forall x, x ∈ children orgs parent_id ->
            get_ous_recursive orgs fuel (OU_Id x) (OU_Name x) (S level)
              = Some (below x)).
  { intros x Hin. apply list_elem_of_In in Hin.
    destruct (get_ous_recursive_some orgs d fuel (OU_Id x) (OU_Name x) (S level))
      as [r Hr]; [by apply Hd|lia|].
    unfold below. by rewrite Hr. }
  destruct (gather_pages_some
              (fun ou => get_ous_recursive orgs fuel (OU_Id ou) (OU_Name ou) (S level))
              parent_name level below
              (list_organizational_units_for_parent orgs parent_id) ([], []) Hsub)
    as (w & Hrun & Hwarn).
  rewrite Hrun. simpl. eexists _, _. split; [reflexivity|]. split; [|done].
  apply filter_level_children. intros x e Hx He.
  specialize (Hsub x Hx). destruct (below x) as [child cw] eqn:Hb.
  by apply (get_ous_recursive_levels _ _ _ _ _ _ _ Hsub).
Qed.

Lemma get_ous_recursive_keeps_listed_witness :
  exists entries warnings,
    get_ous_recursive (org_with "ou-prod" flaky_units) 3 "r-root" "Root" 0
      = Some (entries, warnings) /\
    filter (fun e => entry_level e = 0) entries
      = entry_of 0 <$> children (org_with "ou-prod" flaky_units) "r-root" /\
    (forall e,
       exhaust (list_organizational_units_for_parent
                  (org_with "ou-prod" flaky_units) "r-root") = Raise e ->
       ("Root", str_exn e) ∈ warnings).
Proof.
  apply (get_ous_recursive_keeps_listed (org_with "ou-prod" flaky_units) 3 3
           "r-root" "Root" 0); [reflexivity|lia].
Defined.

End ListOusFacts.

(** ** The source and the target of [simple] *)

Module SimpleFacts.
Import Migrate Hierarchy Samples Views.

(** *** The account found by name *)

Lemma for_account_in_page_first source page found :
  Simple.for_account_in_page source page found =
    match List.find (fun a => String.eqb (lower (Account_Name a)) (lower source))
            page with
    | Some a => (Some (Account_Id a), Some (Account_Name a))
    | None => found
    end.
Proof.
  induction page as [|a page IH]; simpl; [done|].
  by destruct (String.eqb (lower (Account_Name a)) (lower source)).
Qed.

Lemma for_page_in_accounts_first source ps accounts :
  exhaust ps = Return accounts ->
  Forall (fun a => Account_Id a <> "") accounts ->
  Simple.for_page_in_accounts source ps (None, None) =
    Return
      match List.find (fun a => String.eqb (lower (Account_Name a)) (lower source))
              accounts with
      | Some a => (Some (Account_Id a), Some (Account_Name a))
      | None => (None, None)
      end.
Proof.
  revert accounts. induction ps as [|page rest IH|e]; intros accounts Hex Hids;
    simpl in *.
  - by injection Hex as <-.
  - destruct (exhaust rest) as [l|e]; [|done]. injection Hex as <-.
    apply Forall_app in Hids as [Hpage Hrest].
    rewrite for_account_in_page_first, ResolverFacts.find_app.
    destruct (List.find _ page) as [a|] eqn:Ha; simpl.
    + apply find_some in Ha as [Ha _].
      rewrite Forall_forall in Hpage.
      specialize (Hpage a (proj2 (list_elem_of_In _ _) Ha)).
      by destruct (String.eqb_spec (Account_Id a) "").
    + by apply IH.
  - done.
Qed.

(** X9: for a source that is not twelve digits, when the listing of the
    accounts ends without an error and no account has an empty id, [simple]
    takes the first account of the listing, in the order of the pages,
    whose name is the source up to letter case, with the name as the
    listing spells it; when there is none, the account is not found. *)
Theorem find_source_account_first_by_name (orgs : organizations)
    (source : string) (accounts : list Account) :
  is_account_id source = false ->
  exhaust (list_accounts orgs) = Return accounts ->
  Forall (fun a => Account_Id a <> "") accounts ->
  Simple.find_source_account orgs source =
    match List.find (fun a => String.eqb (lower (Account_Name a)) (lower source))
            accounts with
    | Some a => inr (Account_Id a, Account_Name a)
    | None => inl AccountNotFound
    end.
Proof.
  intros Hsrc Hex Hids. unfold Simple.find_source_account. rewrite Hsrc.
  rewrite (for_page_in_accounts_first source _ accounts Hex Hids).
  destruct (List.find _ accounts) as [a|] eqn:Ha; simpl; [|done].
  apply find_some in Ha as [Ha _].
  rewrite Forall_forall in Hids.
  specialize (Hids a (proj2 (list_elem_of_In _ _) Ha)).
  by destruct (String.eqb_spec (Account_Id a) "").
Qed.

Lemma find_source_account_first_by_name_witness :
  Simple.find_source_account (org_of_accounts twin_accounts) "ACME-PROD"
    = inr ("555566667777", "Acme-Prod").
Proof.
  apply (find_source_account_first_by_name (org_of_accounts twin_accounts)
           "ACME-PROD"
           (listed twin_accounts)); [reflexivity|reflexivity|].
  repeat constructor; discriminate.
Defined.

(** *** Letter case *)

Lemma lower_digits (s : string) : all_digits s = true -> lower s = s.
Proof.
  induction s as [|c s IH]; simpl; [done|].
  intros H. apply andb_true_iff in H as [Hc Hs]. rewrite (IH Hs). f_equal.
  revert Hc. destruct c as [[] [] [] [] [] [] [] []]; vm_compute; congruence.
Qed.

Lemma is_account_id_digits (s : string) :
  is_account_id s = true -> all_digits s = true.
Proof.
  unfold is_account_id. intros H. apply andb_true_iff in H as [H _].
  by destruct s.
Qed.

Lemma for_account_in_page_lower s1 s2 page found :
  lower s1 = lower s2 ->
  Simple.for_account_in_page s1 page found =
  Simple.for_account_in_page s2 page found.
Proof.
  intros Hs. induction page as [|a page IH]; simpl; [done|].
  by rewrite Hs, IH.
Qed.

Lemma for_page_in_accounts_lower s1 s2 ps : forall found,
  lower s1 = lower s2 ->
  Simple.for_page_in_accounts s1 ps found =
  Simple.for_page_in_accounts s2 ps found.
Proof.
  induction ps as [|page rest IH|e]; intros found Hs; simpl; [done| |done].
  rewrite (for_account_in_page_lower s1 s2 page found Hs).
  by rewrite IH.
Qed.

Lemma find_source_account_lower orgs s1 s2 :
  lower s1 = lower s2 ->
  Simple.find_source_account orgs s1 = Simple.find_source_account orgs s2.
Proof.
  intros Hs.
  assert (Hid : is_account_id s1 = is_account_id s2).
  { apply CommandFacts.same_lower_is_account_id. rewrite Hs.
    apply String.eqb_refl. }
  unfold Simple.find_source_account. rewrite <- Hid.
  destruct (is_account_id s1) eqn:H1.
  - assert (s1 = s2) as <-; [|done].
    rewrite <- (lower_digits s1), <- (lower_digits s2); [done| |];
      apply is_account_id_digits; congruence.
  - by rewrite (for_page_in_accounts_lower s1 s2 _ _ Hs).
Qed.

(** X10: [simple] does not tell letter case, in the source or in the
    target: two runs whose sources, and whose targets, differ in letter
    case only end with the same report and send the same [move_account]
    requests, on every organization. *)
Theorem simple_ignores_letter_case (fuel : nat) (orgs : organizations)
    (source1 source2 target1 target2 : string) (dry_run confirm : bool) :
  lower source1 = lower source2 ->
  lower target1 = lower target2 ->
  Simple.simple fuel orgs source1 target1 dry_run confirm =
  Simple.simple fuel orgs source2 target2 dry_run confirm.
Proof.
  intros Hsource Htarget. unfold Simple.simple.
  rewrite (find_source_account_lower orgs source1 source2 Hsource).
  destruct (Simple.find_source_account orgs source2) as [r|[id name]]; [done|].
  destruct (first_root_id orgs) as [root_id|e]; [|done].
  by rewrite (ResolverFacts.simple_find_ou_by_name_case_insensitive orgs fuel
                root_id target1 target2 Htarget).
Qed.

Lemma simple_ignores_letter_case_witness :
  Simple.simple 3 (org_of_accounts twin_accounts) "ACME-PROD" "SANDBOX"
      false true =
  Simple.simple 3 (org_of_accounts twin_accounts) "acme-prod" "Sandbox"
      false true.
Proof.
  apply (simple_ignores_letter_case 3 (org_of_accounts twin_accounts)
           "ACME-PROD" "acme-prod" "SANDBOX" "Sandbox" false true);
    reflexivity.
Defined.

End SimpleFacts.

(** ** The two move commands on the same account and target *)

Module AgreementFacts.
Import Migrate Hierarchy Samples Views.

Lemma find_exact_then_lower (target : string) (l : list OU) (x : OU) :
  NoDup ((fun y => lower (OU_Name y)) <$> l) ->
  List.find (fun y => String.eqb (OU_Name y) target) l = Some x ->
  List.find (fun y => String.eqb (lower (OU_Name y)) (lower target)) l = Some x.
Proof.
  induction l as [|a l IH]; intros Hnd Hfind; simpl in *; [done|].
  apply NoDup_cons in Hnd as [Ha Hnd].
  destruct (String.eqb_spec (OU_Name a) target) as [Heq|Hne].
  - injection Hfind as <-. by rewrite Heq, String.eqb_refl.
  - destruct (String.eqb_spec (lower (OU_Name a)) (lower target)) as [Hl|_];
      [|by apply IH].
    exfalso. apply Ha. apply find_some in Hfind as [Hin Hx].
    apply String.eqb_eq in Hx. apply list_elem_of_fmap. exists x.
    split; [by rewrite Hx|by apply list_elem_of_In].
Qed.

Lemma find_ou_by_name_agree orgs d fuel root_id target t :
  depth_within orgs d root_id = true ->
  listings_sound orgs d root_id = true ->
  d <= fuel ->
  names_distinct orgs d root_id ->
  ExistingOu.find_ou_by_name orgs fuel root_id target = Done (Return (Some t)) ->
  Simple.find_ou_by_name orgs fuel root_id target = Done (Return (Some t)).
Proof.
  intros Hd Hs Hfuel Hnames.
  unfold ExistingOu.find_ou_by_name, Simple.find_ou_by_name.
  rewrite !(ResolverFacts.find_ou_by_name_with_preorder _ orgs target d fuel
              root_id Hd Hs Hfuel).
  unfold first_in_preorder. intros Hexact.
  destruct (List.find (fun y => String.eqb (OU_Name y) target) _) as [x|] eqn:Hx;
    [|done].
  by rewrite (find_exact_then_lower target _ x Hnames Hx).
Qed.

Lemma existing_ou_moves_valid validate_ou_name fuel orgs account_id target
    dry_run confirm mv :
  mv ∈ (ExistingOu.existing_ou validate_ou_name fuel orgs account_id target
          dry_run confirm).2 ->
  is_account_id account_id = true /\ validate_ou_name target = true.
Proof.
  unfold ExistingOu.existing_ou.
  destruct (is_account_id account_id); simpl;
    [|intros H; by apply elem_of_nil in H].
  destruct (validate_ou_name target); simpl;
    [done|intros H; by apply elem_of_nil in H].
Qed.

(** X11: on a hierarchy of bounded depth whose listings end without an
    error, whose ids are not empty and whose OU names differ even up to
    letter case, whenever [existing_ou] sends a [move_account] request,
    [simple], run with the account id as its source and the same target,
    sends the same request and ends with the same report. *)
Theorem simple_moves_as_existing_ou (validate_ou_name : string -> bool)
    (fuel d : nat) (orgs : organizations) (account_id target root_id : string)
    (dry_run confirm : bool) (mv : MoveCall) :
  first_root_id orgs = Return root_id ->
  depth_within orgs d root_id = true ->
  listings_sound orgs d root_id = true ->
  d <= fuel ->
  names_distinct orgs d root_id ->
  mv ∈ (ExistingOu.existing_ou validate_ou_name fuel orgs account_id target
          dry_run confirm).2 ->
  Simple.simple fuel orgs account_id target dry_run confirm =
  ExistingOu.existing_ou validate_ou_name fuel orgs account_id target
    dry_run confirm.
Proof.
  intros Hroot Hd Hs Hfuel Hnames Hin.
  destruct (existing_ou_moves_valid _ _ _ _ _ _ _ _ Hin) as [Hid Hvalid].
  destruct (CommandFacts.existing_ou_moves _ _ _ _ _ _ _ _ Hin)
    as (_ & _ & [account Hacc] & (_ & (p & ps & Hparents & _)
          & (root' & Hroot' & Hfind) & Hdst) & _).
  rewrite Hroot in Hroot'. injection Hroot' as <-.
  rewrite (CommandFacts.existing_ou_planned validate_ou_name fuel orgs
             account_id target dry_run confirm account p ps root_id
             (DestinationParentId mv) Hid Hvalid Hacc Hparents Hroot Hfind Hdst).
  apply (CommandFacts.simple_planned fuel orgs account_id target dry_run
           confirm account_id (Account_Name account) p ps root_id
           (DestinationParentId mv)); try done.
  - by rewrite (CommandFacts.find_source_account_by_id orgs account_id Hid), Hacc.
  - by apply (find_ou_by_name_agree orgs d).
Qed.

Lemma simple_moves_as_existing_ou_witness :
  Simple.simple 3 (org_with "ou-prod" distinct_units) "111122223333"
      "Sandbox" false true =
  ExistingOu.existing_ou always_valid 3 (org_with "ou-prod" distinct_units)
      "111122223333" "Sandbox" false true.
Proof.
  apply (simple_moves_as_existing_ou always_valid 3 3
           (org_with "ou-prod" distinct_units) "111122223333" "Sandbox"
           "r-root" false true
           {| AccountId := "111122223333"; SourceParentId := "ou-prod";
              DestinationParentId := "ou-sandbox" |}).
  - reflexivity.
  - reflexivity.
  - reflexivity.
  - lia.
  - unfold names_distinct. vm_compute.
    repeat (apply NoDup_cons; split;
            [intros H;
             repeat (apply elem_of_cons in H as [H|H]; [discriminate|]);
             by apply elem_of_nil in H|]).
    apply NoDup_nil_2.
  - vm_compute. left.
Defined.

End AgreementFacts.

(** ** The [account] command *)

Module AccountFacts.
Import AFTManager Migrate Samples Views LedgerRoundTrips.
Import Migrate.Account.

(** *** Splitting the account name *)

Lemma append_nonempty (word : string) (c : Ascii.ascii) :
  String.eqb (word +:+ String c "") "" = false.
Proof. by destruct word. Qed.

Lemma split_from_nil (s : string) : forall word,
  split_from word s = [] <-> word = "" /\ all_space s = true.
Proof.
  induction s as [|c s IH]; intros word; simpl.
  - destruct (String.eqb_spec word ""); split; try done; by intros [? ?].
  - destruct (is_space c); simpl.
    + destruct (String.eqb_spec word "") as [->|Hne].
      * rewrite IH. split; [by intros [_ ?]|by intros [_ ?]].
      * split; [done|by intros [? ?]].
    + rewrite IH. split; [|by intros [? ?]].
      intros [Habs _]. pose proof (append_nonempty word c) as Hne.
      rewrite Habs in Hne. done.
Qed.

Lemma split_nil (s : string) : split s = [] <-> all_space s = true.
Proof. unfold split. rewrite split_from_nil. split; [by intros [_ ?]|done]. Qed.

Lemma first_name_raises (account_name : string) :
  (exists e, first_name account_name = Raise e) <->
  contains " " account_name = true /\ all_space account_name = true.
Proof.
  unfold first_name. destruct (contains " " account_name).
  - destruct (split account_name) as [|w ws] eqn:Hsplit; simpl.
    + apply split_nil in Hsplit. split; [done|eauto].
    + split; [by intros [? ?]|].
      intros [_ Hall]. apply split_nil in Hall. congruence.
  - split; [by intros [? ?]|by intros [? _]].
Qed.

Lemma last_name_returns (account_name : string) :
  (contains " " account_name && all_space account_name) = false ->
  exists w, last_name account_name = Return w.
Proof.
  unfold last_name. destruct (contains " " account_name); simpl; [|eauto].
  intros Hall. destruct (split account_name) as [|w ws] eqn:Hsplit.
  - apply split_nil in Hsplit. congruence.
  - destruct (last (w :: ws)) as [w'|] eqn:Hlast; [eauto|].
    by apply last_None in Hlast.
Qed.

Section Command.

Variable validate_email : string -> bool.
Variable validate_ou_name : string -> bool.
Variable request_fields :
  string -> string -> string -> string -> string -> string ->
  list (string * string) -> dict.

(** X12: [account] writes to the ledger on one path only. With an input
    that fails a validation, in a dry run, or when the operator declines,
    the command leaves the account as it found it: no record is written
    and not even the table is created. *)
Theorem account_leaves_the_ledger (user : option string) (today uuid4 : string)
    (account_id account_name email target_ou client_id : string)
    (dry_run confirm : bool) (st : aws) :
  validate_email email = false \/ validate_ou_name target_ou = false \/
  is_account_id account_id = false \/ dry_run = true \/ confirm = false ->
  (account validate_email validate_ou_name request_fields user today uuid4
     account_id account_name email target_ou client_id dry_run confirm st).2
    = st.
Proof.
  intros Hpath. unfold account.
  destruct (validate_email email); [|done].
  destruct (validate_ou_name target_ou); [|done].
  destruct (is_account_id account_id); [|done].
  destruct dry_run; simpl.
  - by destruct (aft_request _ _ _ _ _).
  - destruct confirm; [|done].
    destruct Hpath as [?|[?|[?|[?|?]]]]; done.
Qed.

(** X13: on an account that has the requests table, a live, confirmed run
    of [account] on valid inputs, none of which holds an opening square
    bracket (so that the table of the plan is printed), stores one record, under the id made of
    ["migrate-"], the date of the day and the first eight characters of the
    UUID, and reports that id; a get of the id then answers the record. A
    record that was stored under that id is replaced; the other records
    stay. *)
Theorem account_stores_the_request (user : option string)
    (today uuid4 : string)
    (account_id account_name email target_ou client_id : string) (st : aws)
    (tbl : table) :
  dynamodb st !! table_name = Some tbl ->
  validate_email email = true ->
  validate_ou_name target_ou = true ->
  is_account_id account_id = true ->
  no_markup account_name = true ->
  no_markup email = true ->
  no_markup target_ou = true ->
  no_markup client_id = true ->
  let id := "migrate-" +:+ today +:+ "-" +:+ String.substring 0 8 uuid4 in
  let record :=
    to_dict
      {| request_id := id;
         body :=
           request_fields "client" email account_name client_id
             (default "cli-user" user) target_ou
             [("migration_source", "existing_account");
              ("original_account_id", account_id);
              ("migration_type", "ou_change")] |} in
  let run :=
    account validate_email validate_ou_name request_fields user today uuid4
      account_id account_name email target_ou client_id false true st in
  run = (Return (RequestCreated id), with_ledger (<[id := record]> tbl) st)
  /\ (get_account_request id run.2).1 = Return (Some record).
Proof.
  intros Htbl Hemail Hou Hid _ _ _ _ id record run. subst run.
  unfold account. rewrite Hemail, Hou, Hid. simpl.
  unfold bind. rewrite (create_account_request_run st tbl _ Htbl). simpl.
  split; [done|].
  rewrite (LedgerFacts.get_account_request_exists _ _ id
             (with_ledger_exists _ st)).
  simpl. by rewrite lookup_insert_eq.
Qed.

(** X14: take a dry run of [account] on valid inputs, none of which holds
    an opening square bracket (so that the plan and the preview are
    printed), with an account name in the ASCII range. It ends in an error instead of the preview
    exactly when the name holds a space and nothing but white space: the
    name is then split into no word, and taking the first word raises
    [IndexError]. With any other such name the preview is printed. Nothing
    is written either way. *)
Theorem account_dry_run_blank_name (user : option string)
    (today uuid4 : string)
    (account_id account_name email target_ou client_id : string)
    (confirm : bool) (st : aws) :
  validate_email email = true ->
  validate_ou_name target_ou = true ->
  is_account_id account_id = true ->
  isascii account_name = true ->
  no_markup account_name = true ->
  no_markup email = true ->
  no_markup target_ou = true ->
  no_markup client_id = true ->
  let run :=
    account validate_email validate_ou_name request_fields user today uuid4
      account_id account_name email target_ou client_id true confirm st in
  if contains " " account_name && all_space account_name
  then run = (Return (RequestError (IndexError "list index out of range")), st)
  else exists preview, run = (Return (Preview preview), st).
Proof.
  intros Hemail Hou Hid _ _ _ _ _ run. subst run.
  unfold account. rewrite Hemail, Hou, Hid. simpl. unfold aft_request.
  destruct (contains " " account_name && all_space account_name) eqn:Hblank.
  - apply andb_true_iff in Hblank.
    apply first_name_raises in Hblank as [e He]. rewrite He.
    revert He. unfold first_name.
    destruct (contains " " account_name); [|done].
    destruct (head (split account_name)); [done|]. by intros [= <-].
  - destruct (first_name account_name) as [first|e] eqn:Hfirst.
    + destruct (last_name_returns account_name Hblank) as [w ->]. eauto.
    + assert (Habs : contains " " account_name = true
                     /\ all_space account_name = true).
      { apply first_name_raises. eauto. }
      destruct Habs as [H1 H2]. rewrite H1, H2 in Hblank. done.
Qed.

End Command.

Lemma account_leaves_the_ledger_witness :
  (account always_valid always_valid no_fields None "2025-01-10"
     "0f8fad5b-d9cb-469f-a165-70867728950e" "111122223333" "acme prod"
     "ops@acme.example" "Sandbox" "acme" true false empty_aws).2
    = empty_aws.
Proof.
  apply (account_leaves_the_ledger always_valid always_valid no_fields None
           "2025-01-10" "0f8fad5b-d9cb-469f-a165-70867728950e"
           "111122223333" "acme prod" "ops@acme.example" "Sandbox" "acme"
           true false empty_aws).
  right. right. right. left. reflexivity.
Defined.

Lemma account_stores_the_request_witness :
  account always_valid always_valid no_fields None "2025-01-10"
    "0f8fad5b-d9cb-469f-a165-70867728950e" "111122223333" "acme prod"
    "ops@acme.example" "Sandbox" "acme" false true busy_aws
  = (Return (RequestCreated "migrate-2025-01-10-0f8fad5b"),
     with_ledger
       (<["migrate-2025-01-10-0f8fad5b" :=
            to_dict
              {| request_id := "migrate-2025-01-10-0f8fad5b";
                 body := no_fields "client" "ops@acme.example" "acme prod"
                           "acme" "cli-user" "Sandbox"
                           [("migration_source", "existing_account");
                            ("original_account_id", "111122223333");
                            ("migration_type", "ou_change")] |}]>
          busy_table) busy_aws).
Proof.
  refine (proj1 (account_stores_the_request always_valid always_valid no_fields
            None "2025-01-10" "0f8fad5b-d9cb-469f-a165-70867728950e"
            "111122223333" "acme prod" "ops@acme.example" "Sandbox" "acme"
            busy_aws busy_table _ _ _ _ _ _ _ _)); reflexivity.
Defined.

Lemma account_dry_run_blank_name_witness :
  account always_valid always_valid no_fields None "2025-01-10"
    "0f8fad5b-d9cb-469f-a165-70867728950e" "111122223333" "  "
    "ops@acme.example" "Sandbox" "acme" true false empty_aws
  = (Return (RequestError (IndexError "list index out of range")), empty_aws).
Proof.
  apply (account_dry_run_blank_name always_valid always_valid no_fields None
           "2025-01-10" "0f8fad5b-d9cb-469f-a165-70867728950e"
           "111122223333" "  " "ops@acme.example" "Sandbox" "acme" false
           empty_aws); reflexivity.
Defined.

End AccountFacts.

(** ** Further facts *)

Module FurtherFacts.
Import AFTManager Status Migrate Hierarchy LedgerSpec Samples Views
  LedgerRoundTrips.

(** *** An account without the table *)

(** X15: the requests table is never created. On an account without it the
    call that would create it is refused before it is sent, and every
    operation of the ledger fails for that reason and leaves the account as
    it found it: a put, an update and a delete report the failure, a get
    and a listing raise, and the overview ends with the error. *)
Theorem ledger_needs_the_table (refused_name : string -> bool) (st : aws)
    (r : AccountRequest) (now request_id : string) (updates : dict)
    (client_id status : option string) (limit : Z) :
  dynamodb st !! table_name = None ->
  exists reason,
    _get_table st = (Raise (Exception reason), st) /\
    create_account_request r st = (Return (Failed reason), st) /\
    update_account_request refused_name now request_id updates st
      = (Return (Failed reason), st) /\
    delete_account_request request_id st = (Return (Failed reason), st) /\
    get_account_request request_id st
      = (Raise (Exception ("Failed to get account request: " +:+ reason)), st) /\
    list_account_requests client_id status limit st
      = (Raise (Exception ("Failed to list account requests: " +:+ reason)),
         st) /\
    overview st
      = (Return (inr ("Failed to list account requests: " +:+ reason)), st).
Proof.
  intros Htbl. exists (str_exn table_refused).
  split; [exact (LedgerFacts._get_table_missing st Htbl)|].
  split; [by apply create_account_request_no_table|].
  split; [by apply UpdateOutcomes.update_account_request_no_table|].
  split; [by apply delete_account_request_no_table|].
  split; [by apply LedgerFacts.get_account_request_missing|].
  assert (Hlist : forall c s l,
            list_account_requests c s l st =
              (Raise (Exception ("Failed to list account requests: " +:+
                                 str_exn table_refused)), st)).
  { intros c s l. unfold list_account_requests, try_except, bind.
    by rewrite (LedgerFacts._get_table_missing st Htbl). }
  split; [apply Hlist|].
  unfold overview, try_except, bind. by rewrite Hlist.
Qed.

Lemma ledger_needs_the_table_witness :
  exists reason,
    _get_table empty_aws = (Raise (Exception reason), empty_aws) /\
    create_account_request colliding_request empty_aws
      = (Return (Failed reason), empty_aws) /\
    update_account_request reserved_sample "2025-01-10T12:00:00" "req-1"
        completed empty_aws
      = (Return (Failed reason), empty_aws) /\
    delete_account_request "req-1" empty_aws
      = (Return (Failed reason), empty_aws) /\
    get_account_request "req-1" empty_aws
      = (Raise (Exception ("Failed to get account request: " +:+ reason)),
         empty_aws) /\
    list_account_requests (Some "acme") None 5 empty_aws
      = (Raise (Exception ("Failed to list account requests: " +:+ reason)),
         empty_aws) /\
    overview empty_aws
      = (Return (inr ("Failed to list account requests: " +:+ reason)),
         empty_aws).
Proof.
  apply (ledger_needs_the_table reserved_sample empty_aws colliding_request
           "2025-01-10T12:00:00" "req-1" completed (Some "acme") None 5).
  reflexivity.
Defined.

(** *** A put undone by a delete *)

(** X16: deleting a request right after it was put, under an id that was
    not stored before, leaves every record of the ledger as it was before
    the put. *)
Theorem create_then_delete (st : aws) (r : AccountRequest) :
  ledger st !! request_id r = None ->
  let st' := (create_account_request r st).2 in
  ledger (delete_account_request (request_id r) st').2 = ledger st /\
  forall id,
    (get_account_request id (delete_account_request (request_id r) st').2).1
      = (get_account_request id st).1.
Proof.
  intros Habsent st'. subst st'.
  destruct (dynamodb st !! table_name) as [tbl|] eqn:Htbl.
  - rewrite (ledger_exists st tbl Htbl) in *.
    rewrite (create_account_request_run st tbl r Htbl). cbn [snd].
    rewrite (delete_account_request_run _ _ (request_id r)
               (with_ledger_exists _ st)). cbn [snd].
    rewrite with_ledger_twice, ledger_with_ledger.
    rewrite delete_insert_id by done.
    split; [done|].
    intros id.
    rewrite (LedgerFacts.get_account_request_exists _ _ id
               (with_ledger_exists tbl st)).
    by rewrite (LedgerFacts.get_account_request_exists st tbl id Htbl).
  - rewrite (create_account_request_no_table st r Htbl). cbn [snd].
    by rewrite (delete_account_request_no_table st (request_id r) Htbl).
Qed.

Lemma create_then_delete_witness :
  ledger (delete_account_request "req-9"
            (create_account_request
               {| request_id := "req-9"; body := completed |} busy_aws).2).2
    = busy_table.
Proof.
  refine (proj1 (create_then_delete busy_aws
                   {| request_id := "req-9"; body := completed |} _)).
  reflexivity.
Defined.

End FurtherFacts.
